(** * Vetur: the Vue/TypeScript service host, its file registry and the
      template-interpolation language mode

    A shallow embedding of four parts of the language server:

    - class [VueFileInfoManager]            (module [VueFileInfoManager]),
    - [vueTypescriptLanguageServiceHost.ts] (module [ServiceHost]),
    - class [VueTypescriptLanguageService]  (module [LanguageService]),
    - class [VueInterpolationMode]          (module [VueInterpolationMode]).

    JavaScript [Map]s are finite maps keyed by file name.  The two
    dictionaries of the registry are plain objects: what they hold of their
    own is a finite map, and a read [dict[name]] also finds the members
    every object inherits from [Object.prototype]
    ([VueFileInfoManager.read]).  JavaScript numbers that hold counters,
    offsets, diagnostic codes and document versions are integers ([Z]); the
    counters stay far below 2^53, where adding one is exact.  An identifier
    that no scope binds throws a [ReferenceError] when it is evaluated.
    Collaborators that live outside these four parts (the TypeScript
    engine, [util.ts], [bridge.ts], [paths.ts], the source-map module, the
    document-regions facility, the service host the interpolation mode is
    constructed with, JavaScript built-ins) enter as type classes whose
    fields are left abstract; module [Sample] instantiates them for the
    statements that are run on explicit inputs.

    Layout: the embedding first, module by module; then [Sample]; then one
    module of facts for each embedded part. *)

From stdpp Require Import gmap strings list fin_maps.
From Stdlib Require Import Ascii ZArith QArith Lia.

Local Open Scope Z_scope.
Local Open Scope string_scope.
Local Set Warnings "-register-all".

(** ** Strings as JavaScript uses them *)

(** [s.endsWith(suffix)] *)
Definition endsWith (s suffix : string) : bool :=
  let n := String.length s in
  let m := String.length suffix in
  (m <=? n)%nat && String.eqb (String.substring (n - m)%nat m s) suffix.

(** [s.slice(0, -k)] for a literal [k]: the string without its last [k]
    code units (empty when the string is shorter). *)
Definition dropLast (k : nat) (s : string) : string :=
  String.substring 0 (String.length s - k)%nat s.

(** [s || fallback] on a string: the empty string is falsy. *)
Definition str_or (s fallback : string) : string :=
  if String.eqb s "" then fallback else s.

(** The string ['\n']. *)
Definition newline : string := String (ascii_of_nat 10) EmptyString.

(** [o || fallback] where [o] is [string | undefined]. *)
Definition optstr_or (o : option string) (fallback : string) : string :=
  match o with
  | Some s => str_or s fallback
  | None => fallback
  end.

(** [text.substring(start, end)]: both indices are clamped to the string
    and swapped when out of order. *)
Definition js_substring (text : string) (a b : Z) : string :=
  let len := Z.of_nat (String.length text) in
  let clamp x := Z.max 0 (Z.min x len) in
  let lo := Z.min (clamp a) (clamp b) in
  let hi := Z.max (clamp a) (clamp b) in
  String.substring (Z.to_nat lo) (Z.to_nat (hi - lo)) text.

(** ** JavaScript values read from JSON and from the configuration bag *)

Inductive JsValue : Type :=
| JUndefined
| JNull
| JBool (b : bool)
| JNum (q : Q)
| JStr (s : string)
| JArr (items : list JsValue)
| JObj (fields : list (string * JsValue)).

(** [!!v] *)
Definition truthy (v : JsValue) : bool :=
  match v with
  | JUndefined | JNull => false
  | JBool b => b
  | JNum q => negb (Qeq_bool q 0)
  | JStr s => negb (String.eqb s "")
  | JArr _ | JObj _ => true
  end.

(** [v == null] *)
Definition nullish (v : JsValue) : bool :=
  match v with
  | JUndefined | JNull => true
  | _ => false
  end.

Fixpoint lookup_field (k : string) (fields : list (string * JsValue)) : JsValue :=
  match fields with
  | [] => JUndefined
  | (k', v) :: rest => if String.eqb k k' then v else lookup_field k rest
  end.

(** [v[k]] on a value that is neither [null] nor [undefined], for the data
    keys this program reads ([vetur], [experimental],
    [templateInterpolationService], [dependencies], [devDependencies],
    [vue]): none of them is a built-in member of a string, number, boolean
    or array. *)
Definition prop (v : JsValue) (k : string) : JsValue :=
  match v with
  | JObj fields => lookup_field k fields
  | _ => JUndefined
  end.

(** Exceptions the modelled code can raise. *)
Inductive Exn : Type :=
| TypeError
| SyntaxError.

(** A computation that returns or throws. *)
Inductive Result (A : Type) : Type :=
| Ok (a : A)
| Throw (e : Exn).
Arguments Ok {A} a.
Arguments Throw {A} e.

Definition Result_bind {A B : Type} (r : Result A) (k : A -> Result B) : Result B :=
  match r with
  | Ok a => k a
  | Throw e => Throw e
  end.

(** [v.k] as an expression: reading a property of [null] or [undefined]
    throws a [TypeError]. *)
Definition member (v : JsValue) (k : string) : Result JsValue :=
  if nullish v then Throw TypeError else Ok (prop v k).

(** lodash's [baseGet] loop: [None] when it stops before the path is
    consumed. *)
Fixpoint baseGet_walk (object : JsValue) (path : list string) : option JsValue :=
  match path with
  | [] => Some object
  | k :: rest => if nullish object then None else baseGet_walk (prop object k) rest
  end.

Definition baseGet (object : JsValue) (path : list string) : JsValue :=
  match path with
  | [] => JUndefined
  | _ => default JUndefined (baseGet_walk object path)
  end.

(** [_.get(object, path, defaultValue)] with an array path *)
Definition lodash_get (object : JsValue) (path : list string) (defaultValue : JsValue) : JsValue :=
  let result := if nullish object then JUndefined else baseGet object path in
  match result with
  | JUndefined => defaultValue
  | _ => result
  end.

(** ** The regular expression [/\d+\.\d+/] *)

Definition is_digit (c : ascii) : bool :=
  let n := nat_of_ascii c in (48 <=? n)%nat && (n <=? 57)%nat.

(** The longest prefix of digits, and what follows it. *)
Fixpoint span_digits (s : string) : string * string :=
  match s with
  | String c rest =>
      if is_digit c
      then let '(d, r) := span_digits rest in (String c d, r)
      else (EmptyString, s)
  | EmptyString => (EmptyString, EmptyString)
  end.

(** A match that starts at the first character.  Both [\d+] are greedy; the
    first cannot give a digit back, because the next pattern character is
    the dot. *)
Definition match_version_here (s : string) : option string :=
  let '(d1, r1) := span_digits s in
  if String.eqb d1 "" then None
  else match r1 with
       | String "."%char r2 =>
           let '(d2, _) := span_digits r2 in
           if String.eqb d2 "" then None else Some (d1 +:+ "." +:+ d2)
       | _ => None
       end.

(** [s.match(/\d+\.\d+/)]: the leftmost match, [None] for [null]. *)
Fixpoint match_version (s : string) : option string :=
  match match_version_here s with
  | Some m => Some m
  | None =>
      match s with
      | String _ rest => match_version rest
      | EmptyString => None
      end
  end.

(** Every character is a decimal digit. *)
Fixpoint all_digits (s : string) : bool :=
  match s with
  | String c rest => is_digit c && all_digits rest
  | EmptyString => true
  end.

(** ** TypeScript enumerations used by the host *)

(** [ts.ScriptKind] *)
Inductive ScriptKind : Type :=
| SK_Unknown | SK_JS | SK_JSX | SK_TS | SK_TSX | SK_External | SK_JSON | SK_Deferred.

(** [ts.Extension] *)
Inductive Extension : Type :=
| Ext_Ts | Ext_Tsx | Ext_Dts | Ext_Js | Ext_Jsx | Ext_Json.

(** ** Documents, positions, spans (vscode-languageserver-types, ts) *)

Record TextDocument : Type := mkTextDocument {
  uri : string;
  languageId : string;
  version : Z;
  getText : string
}.

(** [TextDocument.create(uri, languageId, version, content)] *)
Definition TextDocument_create (u l : string) (v : Z) (content : string) : TextDocument :=
  mkTextDocument u l v content.

Record Position : Type := mkPosition { line : Z; character : Z }.
Record Range : Type := mkRange { range_start : Position; range_end : Position }.
Record TextSpan : Type := mkTextSpan { span_start : Z; span_length : Z }.

(** [Range.create(start, end)] *)
Definition Range_create (s e : Position) : Range := mkRange s e.

(** ** Collaborators outside the four files *)

(** [util.ts]: the three file-name patterns. *)
Class Util : Type := {
  isVueFile : string -> bool;
  isVirtualVueFile : string -> bool;
  isVirtualVueTemplateFile : string -> bool
}.

(** [bridge.ts]: the fixed bridging module. *)
Class Bridge : Type := {
  bridge_moduleName : string;
  bridge_fileName : string;
  bridge_content : string;
  bridge_oldContent : string
}.

(** [utils/paths.ts] and [vscode-uri]. *)
Class Paths : Type := {
  getFileFsPath : string -> string;
  getFilePath : string -> string;
  (** [Uri.file(fileName).fsPath] *)
  Uri_file_fsPath : string -> string;
  (** [Uri.file(fileName).toString()] *)
  Uri_file_toString : string -> string;
  (** [path.isAbsolute] *)
  path_isAbsolute : string -> bool
}.

(** [LanguageModelCache<TextDocument>.get] and the document-regions
    facility ([getVueDocumentRegions(doc).getSingleTypeDocument('script')]). *)
Class Regions : Type := {
  jsDocuments_get : TextDocument -> TextDocument;
  getSingleTypeDocument_script : TextDocument -> TextDocument
}.

(** Which [ts.System] a resolution runs against. *)
Inductive SysKind : Type :=
| TsSys
| VueSys.

Record ResolvedModule : Type := mkResolvedModule {
  resolvedFileName : string;
  extension : Extension
}.

(** The parts of the TypeScript module and of the JavaScript run time the
    service host calls. *)
Class TsModule : Type := {
  CompilerOptions : Type;
  (** [tsModule.resolveModuleName(name, containingFile, options, sys).resolvedModule] *)
  resolveModuleName : string -> string -> CompilerOptions -> SysKind -> option ResolvedModule;
  (** [tsModule.sys.readFile] *)
  sys_readFile : string -> option string;
  (** [tsModule.findConfigFile(searchPath, tsModule.sys.fileExists, configName)] *)
  findConfigFile : string -> string -> option string;
  (** [JSON.parse] on a string; [None] is a [SyntaxError]. *)
  JSON_parse : string -> option JsValue;
  (** [parseFloat(s) < 2.5] *)
  parseFloat_lt_2_5 : string -> bool
}.

(** * vueFileInfoManager.ts *)

Record FileInfo : Type := mkFileInfo {
  fi_fileName : string;
  fi_version : string;
  fi_kind : ScriptKind
}.

Module VueFileInfoManager.

(** The two private dictionaries of the class. *)
Record t : Type := mk {
  sharedFileInfoMap : gmap string FileInfo;
  virtualVueTemplateFileInfoMap : gmap string FileInfo
}.

Section Manager.
Context {Ut : Util} {Br : Bridge}.

(** [constructor(tsModule)] *)
Definition constructor : t :=
  mk (<[bridge_fileName := mkFileInfo bridge_fileName "0" SK_TS]> ∅) ∅.

(** [getFiles(includeVirtualVueFiles)]; the order of [Object.keys] is not
    modelled, only which names are listed. *)
Definition getFiles (m : t) (includeVirtualVueFiles : bool) : list string :=
  if includeVirtualVueFiles
  then (map_to_list (sharedFileInfoMap m)).*1
         ++ (map_to_list (virtualVueTemplateFileInfoMap m)).*1
  else (map_to_list (sharedFileInfoMap m)).*1.

(** The names of the members every object inherits from
    [Object.prototype]. *)
Definition objectPrototypeMembers : list string :=
  ["constructor"; "hasOwnProperty"; "isPrototypeOf"; "propertyIsEnumerable";
   "toLocaleString"; "toString"; "valueOf"; "__proto__";
   "__defineGetter__"; "__defineSetter__"; "__lookupGetter__"; "__lookupSetter__"].

Definition inheritedMember (name : string) : bool :=
  bool_decide (name ∈ objectPrototypeMembers).

(** What a read [dict[fileName]] of one of the two dictionaries finds: an
    entry of its own, a member inherited from [Object.prototype] (a
    function, or the prototype itself), or [undefined]. *)
Inductive Found : Type :=
| OwnEntry (info : FileInfo)
| InheritedMember
| NotFound.

(** [dict[fileName]]: an own entry comes before an inherited member. *)
Definition read (dict : gmap string FileInfo) (fileName : string) : Found :=
  match dict !! fileName with
  | Some info => OwnEntry info
  | None => if inheritedMember fileName then InheritedMember else NotFound
  end.

(** [getScriptVersion(fileName)]; [None] is [undefined].  An entry and an
    inherited member are both truthy; an inherited member has no
    [version]. *)
Definition getScriptVersion (m : t) (fileName : string) : option string :=
  match read (sharedFileInfoMap m) fileName with
  | OwnEntry info => Some (fi_version info)
  | InheritedMember => None
  | NotFound =>
      match read (virtualVueTemplateFileInfoMap m) fileName with
      | OwnEntry info => Some (fi_version info)
      | InheritedMember => None
      | NotFound => Some "0"
      end
  end.

(** [getScriptKind(fileName)]: the kind ([None] is [undefined]: an
    inherited member has no [kind]), and the lines this call writes to the
    console. *)
Definition getScriptKind (m : t) (fileName : string) : option ScriptKind * list string :=
  match read (sharedFileInfoMap m) fileName with
  | OwnEntry info => (Some (fi_kind info), [])
  | InheritedMember => (None, [])
  | NotFound =>
      match read (virtualVueTemplateFileInfoMap m) fileName with
      | OwnEntry info => (Some (fi_kind info), [])
      | InheritedMember => (None, [])
      | NotFound => (Some SK_JS, ["Can't find ScriptKind for " +:+ fileName])
      end
  end.

(** The first [if] of [addScript].  A name that passes the patterns of
    [util.ts] ends in [.vue] or [.vue.ts], so the test for an entry is a
    test for an entry of the dictionary's own. *)
Definition addShared (fileName : string) (kind : ScriptKind) (m : t) : t :=
  if isVueFile fileName || isVirtualVueFile fileName then
    match sharedFileInfoMap m !! fileName with
    | Some _ => m
    | None =>
        mk (<[fileName := mkFileInfo fileName "0" kind]> (sharedFileInfoMap m))
           (virtualVueTemplateFileInfoMap m)
    end
  else m.

(** The second [if] of [addScript]; the names that pass end in
    [.vue.template]. *)
Definition addTemplate (fileName : string) (kind : ScriptKind) (m : t) : t :=
  if isVirtualVueTemplateFile fileName then
    match virtualVueTemplateFileInfoMap m !! fileName with
    | Some _ => m
    | None =>
        mk (sharedFileInfoMap m)
           (<[fileName := mkFileInfo fileName "0" kind]> (virtualVueTemplateFileInfoMap m))
    end
  else m.

(** [addScript(fileName, kind)] *)
Definition addScript (fileName : string) (kind : ScriptKind) (m : t) : t :=
  addTemplate fileName kind (addShared fileName kind m).

(** The class has no other mutator: every manager the program can hold is
    the constructor's, followed by [addScript] calls. *)
Inductive reachable : t -> Prop :=
| reachable_new : reachable constructor
| reachable_add m fileName kind :
    reachable m -> reachable (addScript fileName kind m).

End Manager.
End VueFileInfoManager.

(** * vueTypescriptLanguageServiceHost.ts *)

Module ServiceHost.

(** [ts.IScriptSnapshot] over a fixed text. *)
Record ScriptSnapshot : Type := mkSnapshot { snapshot_text : string }.

Definition snapshot_getText (s : ScriptSnapshot) (a b : Z) : string :=
  js_substring (snapshot_text s) a b.
Definition snapshot_getLength (s : ScriptSnapshot) : Z :=
  Z.of_nat (String.length (snapshot_text s)).

Section Host.
Context {Ut : Util} {Br : Bridge} {Pa : Paths} {Rg : Regions} {Ts : TsModule}.

(** [getNormalizedFileFsPath] *)
Definition getNormalizedFileFsPath (fileName : string) : string :=
  Uri_file_fsPath fileName.

(** [parseVueScript(text)] *)
Definition parseVueScript (text : string) : string :=
  let doc := TextDocument_create "test://test/test.vue" "vue" 0 text in
  let script := getSingleTypeDocument_script doc in
  str_or (getText script) "export default {};".

(** [vueStr.match(/\d+\.\d+/)[0]]: only a string has a callable [match];
    on [null] and [undefined] the member read throws, on any other value
    the call does, and so does indexing the [null] of a failed match. *)
Definition match_first (vueStr : JsValue) : Result string :=
  match vueStr with
  | JStr s =>
      match match_version s with
      | Some m => Ok m
      | None => Throw TypeError
      end
  | _ => Throw TypeError
  end.

(** [packageJSONPath && JSON.parse(tsModule.sys.readFile(packageJSONPath)!)]:
    a missing path leaves [undefined], an empty one the empty string;
    [JSON.parse(undefined)] is a [SyntaxError]. *)
Definition read_packageJSON (packageJSONPath : option string) : Result JsValue :=
  match packageJSONPath with
  | None => Ok JUndefined
  | Some p =>
      if String.eqb p "" then Ok (JStr "")
      else match sys_readFile p with
           | None => Throw SyntaxError
           | Some text =>
               match JSON_parse text with
               | Some v => Ok v
               | None => Throw SyntaxError
               end
           end
  end.

(** The body of the [try] block of [isUsingOldVueVersion]. *)
Definition probe_body (packageJSONPath : option string) : Result bool :=
  Result_bind (read_packageJSON packageJSONPath) (fun packageJSON =>
  Result_bind (member packageJSON "dependencies") (fun dependencies =>
  Result_bind (member dependencies "vue") (fun depVue =>
  Result_bind
    (if truthy depVue then Ok depVue
     else Result_bind (member packageJSON "devDependencies") (fun devDependencies =>
          member devDependencies "vue")) (fun vueStr =>
  Result_bind (match_first vueStr) (fun vueDep =>
  Ok (parseFloat_lt_2_5 vueDep)))))).

(** [isUsingOldVueVersion(tsModule, workspacePath)] *)
Definition isUsingOldVueVersion (workspacePath : string) : bool :=
  let packageJSONPath := findConfigFile workspacePath "package.json" in
  match probe_body packageJSONPath with
  | Ok b => b
  | Throw _ => true
  end.

(** The values [createLanguageServiceHost] closes over. *)
Record Host : Type := mkHost {
  options : CompilerOptions;
  includeVirtualVueFiles : bool;
  workspacePath : string;
  isOldVersion : bool
}.

(** [createLanguageServiceHost(...)]: the probe runs once, here. *)
Definition createLanguageServiceHost
    (opts : CompilerOptions) (includeVirtual : bool) (workspace : string) : Host :=
  mkHost opts includeVirtual workspace (isUsingOldVueVersion workspace).

(** One element of [resolveModuleNames]; [None] is [undefined]. *)
Definition resolveOne (h : Host) (scriptDocs : gmap string TextDocument)
    (containingFile name : string) : option ResolvedModule :=
  if String.eqb name bridge_moduleName then
    Some (mkResolvedModule bridge_fileName Ext_Ts)
  else if path_isAbsolute name || negb (isVueFile name) then
    resolveModuleName name containingFile (options h) TsSys
  else
    match resolveModuleName name containingFile (options h) VueSys with
    | None => None
    | Some resolved =>
        if negb (endsWith (resolvedFileName resolved) ".vue.ts") then Some resolved
        else
          let resolvedFileName := dropLast 3 (resolvedFileName resolved) in
          let uri := Uri_file_toString resolvedFileName in
          let doc :=
            match scriptDocs !! resolvedFileName with
            | Some d => d
            | None =>
                jsDocuments_get
                  (TextDocument_create uri "vue" 0
                     (optstr_or (sys_readFile resolvedFileName) ""))
            end in
          let extension :=
            if String.eqb (languageId doc) "typescript" then Ext_Ts
            else if String.eqb (languageId doc) "tsx" then Ext_Tsx
            else Ext_Js in
          Some (mkResolvedModule resolvedFileName extension)
  end.

(** [resolveModuleNames(moduleNames, containingFile)] *)
Definition resolveModuleNames (h : Host) (scriptDocs : gmap string TextDocument)
    (moduleNames : list string) (containingFile : string) : list (option ResolvedModule) :=
  map (resolveOne h scriptDocs containingFile) moduleNames.

(** [getScriptSnapshot(fileName)] *)
Definition getScriptSnapshot (h : Host) (scriptDocs : gmap string TextDocument)
    (fileName : string) : ScriptSnapshot :=
  if String.eqb fileName bridge_fileName then
    mkSnapshot (if isOldVersion h then bridge_oldContent else bridge_content)
  else
    let normalizedFileFsPath := getNormalizedFileFsPath fileName in
    let doc := scriptDocs !! normalizedFileFsPath in
    let fileText :=
      match doc with
      | Some d => getText d
      | None => optstr_or (sys_readFile normalizedFileFsPath) ""
      end in
    let fileText :=
      if negb (bool_decide (is_Some doc)) && isVueFile fileName
      then parseVueScript fileText
      else fileText in
    mkSnapshot fileText.

(** Which system a name other than the bridging module is resolved
    against. *)
Definition sysOf (name : string) : SysKind :=
  if path_isAbsolute name || negb (isVueFile name) then TsSys else VueSys.

(** [getScriptFileNames()], [getScriptVersion(fileName)] and
    [getScriptKind(fileName)]: the host passes the question on to the
    registry it was created with. *)
Definition getScriptFileNames (h : Host) (m : VueFileInfoManager.t) : list string :=
  VueFileInfoManager.getFiles m (includeVirtualVueFiles h).
Definition host_getScriptVersion (m : VueFileInfoManager.t) (fileName : string)
    : option string :=
  VueFileInfoManager.getScriptVersion m fileName.
Definition host_getScriptKind (m : VueFileInfoManager.t) (fileName : string)
    : option ScriptKind * list string :=
  VueFileInfoManager.getScriptKind m fileName.

End Host.

(** The package lists Vue with version text [s], under [dependencies] or
    under [devDependencies]. *)
Definition listsVue (packageJSON : JsValue) (s : string) : Prop :=
  prop (prop packageJSON "dependencies") "vue" = JStr s \/
  prop (prop packageJSON "devDependencies") "vue" = JStr s.

End ServiceHost.

(** * vueTypescriptLanguageService.ts *)

Module LanguageService.

(** What evaluating an identifier that no scope binds throws. *)
Inductive Thrown : Type :=
| ReferenceError (identifier : string).

(** The two fields of the class that [updateCurrentTextDocument] can
    reach, [this.versions] and [this.scriptDocs]. *)
Record State : Type := mkState {
  versions : gmap string Z;
  scriptDocs : gmap string TextDocument
}.

(** The field initialisers of the class. *)
Definition initial : State := mkState ∅ ∅.

(** A call returns or throws, and leaves a state. *)
Inductive Outcome (A : Type) : Type :=
| Returned (a : A) (st : State)
| Threw (e : Thrown) (st : State).
Arguments Returned {A} a st.
Arguments Threw {A} e st.

Definition Run (A : Type) : Type := State -> Outcome A.

Definition ret {A : Type} (a : A) : Run A := fun st => Returned a st.
Definition bind {A B : Type} (m : Run A) (k : A -> Run B) : Run B :=
  fun st =>
    match m st with
    | Returned a st' => k a st'
    | Threw e st' => Threw e st'
    end.

Notation "x <- m ;; k" := (bind m (fun x => k))
  (at level 100, m at next level, right associativity).

(** Evaluating [identifier] where neither the method, nor the class body,
    nor the module (its imports and its four functions), nor the global
    object binds it. *)
Definition unbound {A : Type} (identifier : string) : Run A :=
  fun st => Threw (ReferenceError identifier) st.

(** [this.scriptDocs.has(fileFsPath)] *)
Definition scriptDocs_has (fileFsPath : string) : Run bool :=
  fun st => Returned (bool_decide (is_Some (scriptDocs st !! fileFsPath))) st.

Section Service.
Context {Pa : Paths}.

(** [updateCurrentTextDocument(doc)], as the source stands; of the record
    it is to return, the script document.  The method names
    [this.scriptDocs] once; [files], [isVirtualVueTemplateFile] (which the
    file does not import), [scriptDocs], [versions], [currentScriptDoc]
    (a local of [init]), [jsDocuments], [jsLanguageService], [jsHost],
    [templateLanguageService] and [templateSourceMap] are bound nowhere.
    The condition of the second [if] is the first thing evaluated after
    the first [if], so no statement after it is reached; the two branches
    are given by what each evaluates first. *)
Definition updateCurrentTextDocument (doc : TextDocument) : Run (option TextDocument) :=
  let fileFsPath := getFileFsPath (uri doc) in
  let filePath := getFilePath (uri doc) in
  known <- scriptDocs_has fileFsPath ;;
  _ <- (if negb known
           && (endsWith fileFsPath ".vue" || endsWith fileFsPath ".vue.template")
        then unbound (A := unit) "files"
        else ret tt) ;;
  isTemplate <- unbound (A := bool) "isVirtualVueTemplateFile" ;;
  if isTemplate then unbound "scriptDocs" else unbound "currentScriptDoc".

(** The state a call leaves, whether it returned or threw. *)
Definition stateOf {A : Type} (o : Outcome A) : State :=
  match o with
  | Returned _ st => st
  | Threw _ st => st
  end.

(** The version stamp of a file: [this.versions.get(fileName)], and 0
    when the map has none. *)
Definition versionOf (st : State) (fileName : string) : Z :=
  default 0 (versions st !! fileName).

(** A sequence of updates, first to last, by a caller that goes on after
    a call that threw. *)
Definition updateAll (docs : list TextDocument) (st : State) : State :=
  foldl (fun s d => stateOf (updateCurrentTextDocument d s)) st docs.

End Service.
End LanguageService.

(** ** The options [init] builds, and the configuration it reads *)

(** The value of a compiler option: a flag, a list of names, a member of
    one of TypeScript's enumerations (by name), or whatever else a
    configuration file holds. *)
Inductive OptionValue : Type :=
| OptBool (b : bool)
| OptStrings (names : list string)
| OptEnum (member : string)
| OptJs (v : JsValue).

(** [parse-gitignore], and the two configuration functions of the
    TypeScript module. *)
Class ConfigModule : Type := {
  (** [parseGitIgnore(file)] *)
  parseGitIgnore : string -> list string;
  (** [tsModule.readConfigFile(configFilename, tsModule.sys.readFile).config] *)
  readConfigFile_config : string -> JsValue;
  (** [tsModule.parseJsonConfigFileContent(configJson, tsModule.sys,
       workspacePath, {}, configFilename, undefined,
       [{ extension: 'vue', isMixedContent: true }]).options] *)
  parseJsonConfigFileContent_options :
    JsValue -> string -> option string -> gmap string OptionValue
}.

Module LanguageServiceInit.
Section Init.
Context {Ts : TsModule} {Cf : ConfigModule}.

(** [a || b] on [string | undefined]: the empty string is falsy. *)
Definition optstr_first (a b : option string) : option string :=
  match a with
  | Some s => if String.eqb s "" then b else a
  | None => b
  end.

(** [getDefaultCompilerOptions(tsModule)] *)
Definition getDefaultCompilerOptions : gmap string OptionValue :=
  list_to_map
    [("allowNonTsExtensions", OptBool true);
     ("allowJs", OptBool true);
     ("lib", OptStrings ["lib.dom.d.ts"; "lib.es2017.d.ts"]);
     ("target", OptEnum "ScriptTarget.Latest");
     ("moduleResolution", OptEnum "ModuleResolutionKind.NodeJs");
     ("module", OptEnum "ModuleKind.CommonJS");
     ("jsx", OptEnum "JsxEmit.Preserve");
     ("allowSyntheticDefaultImports", OptBool true)].

(** [defaultIgnorePatterns(tsModule, workspacePath)] *)
Definition defaultIgnorePatterns (workspacePath : string) : list string :=
  let nodeModules := ["node_modules"; "**/node_modules/*"] in
  match findConfigFile workspacePath ".gitignore" with
  | None => nodeModules
  | Some gitignore =>
      if String.eqb gitignore "" then nodeModules
      else
        let parsed := parseGitIgnore gitignore in
        let filtered := List.filter (fun s => negb (String.prefix "!" s)) parsed in
        (nodeModules ++ filtered)%list
  end.

(** The [configFilename] of [getParsedConfig]: [tsconfig.json] if found,
    else [jsconfig.json]. *)
Definition configFilename (workspacePath : string) : option string :=
  optstr_first (findConfigFile workspacePath "tsconfig.json")
               (findConfigFile workspacePath "jsconfig.json").

(** The [configJson] of [getParsedConfig]:
    [(configFilename && readConfigFile(...).config) || { exclude: ... }]. *)
Definition configJson (workspacePath : string) : JsValue :=
  let fallback := JObj [("exclude", JArr (map JStr (defaultIgnorePatterns workspacePath)))] in
  match configFilename workspacePath with
  | Some f =>
      if String.eqb f "" then fallback
      else if truthy (readConfigFile_config f) then readConfigFile_config f
      else fallback
  | None => fallback
  end.

(** [getParsedConfig(tsModule, workspacePath).options] *)
Definition getParsedConfig_options (workspacePath : string) : gmap string OptionValue :=
  parseJsonConfigFileContent_options (configJson workspacePath) workspacePath
    (configFilename workspacePath).

(** [tsServiceOptions] of [init]: the defaults, overwritten by the parsed
    options, overwritten by [allowNonTsExtensions: true]. *)
Definition tsServiceOptions (workspacePath : string) : gmap string OptionValue :=
  <["allowNonTsExtensions" := OptBool true]>
    (getParsedConfig_options workspacePath ∪ getDefaultCompilerOptions).

(** [templateServiceOptions] of [init]: [tsServiceOptions], overwritten
    by five fixed settings. *)
Definition templateServiceOptions (workspacePath : string) : gmap string OptionValue :=
  <["checkJs" := OptBool true]>
    (<["allowJs" := OptBool true]>
       (<["noUnusedParameters" := OptBool false]>
          (<["noUnusedLocals" := OptBool false]>
             (<["noImplicitAny" := OptBool false]> (tsServiceOptions workspacePath))))).

(** The five settings [init] fixes for the template service. *)
Definition templateOverrides : list (string * OptionValue) :=
  [("noImplicitAny", OptBool false);
   ("noUnusedLocals", OptBool false);
   ("noUnusedParameters", OptBool false);
   ("allowJs", OptBool true);
   ("checkJs", OptBool true)].

End Init.
End LanguageServiceInit.

(** * vueInterpolationMode.ts *)

(** [sourceMap.ts]: the template source map and its two translations. *)
Class SourceMapModule : Type := {
  SourceMap : Type;
  mapBackRange : TextDocument -> TextSpan -> SourceMap -> Range;
  mapFromPositionToOffset : TextDocument -> Position -> SourceMap -> Z
}.

(** [IServiceHost] ([serviceHost.ts]): the service host the interpolation
    mode is constructed with.  Of the record its
    [updateCurrentTextDocument] returns, the mode reads [templateService],
    whose answers depend on the state the host is in, and
    [templateSourceMap]. *)
Class IServiceHost {Sm : SourceMapModule} : Type := {
  HostState : Type;
  serviceHost_updateCurrentTextDocument : TextDocument -> HostState -> HostState;
  serviceHost_templateSourceMap : HostState -> SourceMap
}.

Module VueInterpolationMode.

(** [DiagnosticSeverity] of the language-server protocol *)
Inductive DiagnosticSeverity : Type :=
| Severity_Error | Severity_Warning | Severity_Information | Severity_Hint.

(** [ts.DiagnosticCategory] *)
Inductive DiagnosticCategory : Type :=
| Category_Warning | Category_Error | Category_Suggestion | Category_Message.

(** [string | ts.DiagnosticMessageChain]; a chain is the list of its
    message texts, first to last. *)
Inductive MessageText : Type :=
| MsgString (s : string)
| MsgChain (chain : list string).

(** [ts.Diagnostic], with the [start] and [length] the code casts to a
    [TextSpan]. *)
Record RawDiagnostic : Type := mkRawDiagnostic {
  diag_span : TextSpan;
  diag_messageText : MessageText;
  diag_code : Z;
  diag_category : DiagnosticCategory
}.

(** The [code] of a protocol diagnostic: [number | string | undefined]. *)
Inductive DiagCode : Type :=
| CodeNum (n : Z)
| CodeStr (s : string)
| CodeNone.

Record Diagnostic : Type := mkDiagnostic {
  d_range : Range;
  d_severity : DiagnosticSeverity;
  d_message : string;
  d_code : DiagCode;
  d_source : string
}.

Inductive MarkedString : Type :=
| MarkedPlain (s : string)
| MarkedCode (language value : string).

Record Hover : Type := mkHover {
  hover_contents : list MarkedString;
  hover_range : option Range
}.

Record Location : Type := mkLocation {
  loc_uri : string;
  loc_range : Range
}.

(** [ts.DefinitionInfo] and [ts.ReferenceEntry]: the two fields read. *)
Record DocumentSpan : Type := mkDocumentSpan {
  ds_fileName : string;
  ds_textSpan : TextSpan
}.

(** [ts.Program], as far as the mode reads it:
    [program.getSourceFile(fileName)] and, when there is one, its
    [getFullText()]. *)
Definition Program : Type := string -> option string.

(** The calls the mode makes on the service host and on the template
    (lenient) language service. *)
Inductive Call : Type :=
| Call_updateCurrentTextDocument (doc : TextDocument)
| Call_languageServiceIncludesFile (documentUri : string)
| Call_getSemanticDiagnostics (fileName : string)
| Call_getSyntacticDiagnostics (fileName : string)
| Call_getQuickInfoAtPosition (fileName : string) (offset : Z)
| Call_getDefinitionAtPosition (fileName : string) (offset : Z)
| Call_getReferencesAtPosition (fileName : string) (offset : Z)
| Call_getProgram
| Call_getCodeFixesAtPosition (fileName : string) (s e : Z) (codes : list Z)
| Call_collectQuickFixCommands
| Call_getApplicableRefactors (fileName : string) (s e : Z).

Section Mode.
Context {Pa : Paths} {Sm : SourceMapModule} {Sh : IServiceHost}.

(** The template language service, the helpers of [script/javascript.ts]
    and the functions of the TypeScript module the mode calls.  What the
    service answers depends on the state of its host. *)
Class TemplateService : Type := {
  DisplayParts : Type;
  FormatCodeSettings : Type;
  CodeFixAction : Type;
  ApplicableRefactorInfo : Type;
  Command : Type;
  getSemanticDiagnostics : HostState -> string -> list RawDiagnostic;
  getSyntacticDiagnostics : HostState -> string -> list RawDiagnostic;
  getQuickInfoAtPosition :
    HostState -> string -> Z -> option (DisplayParts * option DisplayParts * TextSpan);
  getDefinitionAtPosition : HostState -> string -> Z -> option (list DocumentSpan);
  getReferencesAtPosition : HostState -> string -> Z -> option (list DocumentSpan);
  getProgram : HostState -> option Program;
  getCodeFixesAtPosition :
    HostState -> string -> Z -> Z -> list Z -> FormatCodeSettings -> list CodeFixAction;
  getApplicableRefactors : HostState -> string -> Z -> Z -> list ApplicableRefactorInfo;
  languageServiceIncludesFile : HostState -> string -> bool;
  getFormatCodeSettings : JsValue -> FormatCodeSettings;
  collectQuickFixCommands : list CodeFixAction -> HostState -> list Command -> list Command;
  collectRefactoringCommands :
    list ApplicableRefactorInfo -> string -> FormatCodeSettings -> Z -> Z ->
    list Command -> list Command;
  flattenDiagnosticMessageText : MessageText -> string -> string;
  displayPartsToString : option DisplayParts -> string;
  getSupportedCodeFixes : list string;
  (** [Number(s)]; [None] is [NaN]. *)
  js_Number : string -> option Z;
  (** [document.positionAt(offset)] *)
  positionAt : TextDocument -> Z -> Position
}.
Context {Sv : TemplateService}.

(** The mutable surroundings of a mode operation: the service host, the
    mode's own cache of fixable codes, and the calls made so far. *)
Record World : Type := mkWorld {
  host : HostState;
  supportedCodeFixCodes : option (list Z);
  calls : list Call
}.

(** An operation either returns or throws, and leaves a world. *)
Inductive Outcome (A : Type) : Type :=
| Returned (a : A) (w : World)
| Threw (e : Exn) (w : World).
Arguments Returned {A} a w.
Arguments Threw {A} e w.

Definition M (A : Type) : Type := World -> Outcome A.

Definition ret {A : Type} (a : A) : M A := fun w => Returned a w.
Definition throw {A : Type} (e : Exn) : M A := fun w => Threw e w.
Definition bind {A B : Type} (m : M A) (k : A -> M B) : M B :=
  fun w =>
    match m w with
    | Returned a w' => k a w'
    | Threw e w' => Threw e w'
    end.

Notation "x <- m ;; k" := (bind m (fun x => k))
  (at level 100, m at next level, right associativity).

Definition record (c : Call) (w : World) : World :=
  mkWorld (host w) (supportedCodeFixCodes w) (calls w ++ [c]).

(** A query of the template service: recorded, and answered from the
    present state of the host. *)
Definition query {A : Type} (c : Call) (answer : HostState -> A) : M A :=
  fun w => Returned (answer (host w)) (record c w).

(** [this.serviceHost.updateCurrentTextDocument(templateDoc)], as far as
    the mode uses what it returns: the template source map. *)
Definition updateCurrentTextDocument (templateDoc : TextDocument) : M SourceMap :=
  fun w =>
    let h := serviceHost_updateCurrentTextDocument templateDoc (host w) in
    Returned (serviceHost_templateSourceMap h)
             (record (Call_updateCurrentTextDocument templateDoc)
                     (mkWorld h (supportedCodeFixCodes w) (calls w))).

(** [_.get(this.config, ['vetur', 'experimental',
     'templateInterpolationService'], true)], as a condition *)
Definition interpolationEnabled (config : JsValue) : bool :=
  truthy (lodash_get config ["vetur"; "experimental"; "templateInterpolationService"]
            (JBool true)).

(** [TextDocument.create(document.uri + '.template', ...)] *)
Definition templateDocOf (document : TextDocument) : TextDocument :=
  TextDocument_create (uri document +:+ ".template") (languageId document)
    (version document) (getText document).

(** The diagnostic [doValidation] builds from one of the engine's. *)
Definition toDiagnostic (templateDoc : TextDocument) (sm : SourceMap)
    (diag : RawDiagnostic) : Diagnostic :=
  mkDiagnostic (mapBackRange templateDoc (diag_span diag) sm)
               Severity_Error
               (flattenDiagnosticMessageText (diag_messageText diag) newline)
               (CodeNum (diag_code diag))
               "Vetur".

(** [doValidation(document)] *)
Definition doValidation (config : JsValue) (document : TextDocument) : M (list Diagnostic) :=
  if negb (interpolationEnabled config) then ret []
  else
    let templateDoc := templateDocOf document in
    templateSourceMap <- updateCurrentTextDocument templateDoc ;;
    included <- query (Call_languageServiceIncludesFile (uri templateDoc))
                  (fun h => languageServiceIncludesFile h (uri templateDoc)) ;;
    if negb included then ret []
    else
      let templateFileFsPath := getFileFsPath (uri templateDoc) in
      rawTemplateDiagnostics <-
        query (Call_getSemanticDiagnostics templateFileFsPath)
          (fun h => getSemanticDiagnostics h templateFileFsPath) ;;
      ret (map (toDiagnostic templateDoc templateSourceMap) rawTemplateDiagnostics).

(** [doHover(document, position)] *)
Definition doHover (config : JsValue) (document : TextDocument) (position : Position) : M Hover :=
  if negb (interpolationEnabled config) then ret (mkHover [] None)
  else
    let templateDoc := templateDocOf document in
    templateSourceMap <- updateCurrentTextDocument templateDoc ;;
    included <- query (Call_languageServiceIncludesFile (uri templateDoc))
                  (fun h => languageServiceIncludesFile h (uri templateDoc)) ;;
    if negb included then ret (mkHover [] None)
    else
      let templateFileFsPath := getFileFsPath (uri templateDoc) in
      let mappedPosition := mapFromPositionToOffset templateDoc position templateSourceMap in
      info <- query (Call_getQuickInfoAtPosition templateFileFsPath mappedPosition)
                (fun h => getQuickInfoAtPosition h templateFileFsPath mappedPosition) ;;
      match info with
      | Some (displayParts, documentation, textSpan) =>
          let display := displayPartsToString (Some displayParts) in
          let doc := displayPartsToString documentation in
          let markedContents := [MarkedCode "ts" display] in
          let markedContents :=
            if negb (String.eqb doc "")
            then MarkedPlain doc :: MarkedPlain newline :: markedContents
            else markedContents in
          ret (mkHover markedContents
                 (Some (mapBackRange templateDoc textSpan templateSourceMap)))
      | None => ret (mkHover [] None)
      end.

(** [getSourceDoc(fileName, program)]: the non-null assertion on
    [program.getSourceFile(fileName)] is erased by the compiler, so calling
    [getFullText] on a missing source file throws a [TypeError]. *)
Definition getSourceDoc (fileName : string) (program : Program) : Result TextDocument :=
  match program fileName with
  | Some fullText => Ok (TextDocument_create fileName "vue" 0 fullText)
  | None => Throw TypeError
  end.

(** [convertRange(document, span)] *)
Definition convertRange (document : TextDocument) (span : TextSpan) : Range :=
  let startPosition := positionAt document (span_start span) in
  let endPosition := positionAt document (span_start span + span_length span) in
  Range_create startPosition endPosition.

(** One round of the [forEach] loops of [findDefinition] and
    [findReferences].  The target document is an object, so the test
    [if (definitionTargetDoc)] lets every document through. *)
Definition locate (document templateDoc : TextDocument) (templateFileFsPath : string)
    (sm : SourceMap) (program : Program) (r : DocumentSpan) : Result Location :=
  Result_bind
    (if String.eqb (ds_fileName r) templateFileFsPath
     then Ok document
     else getSourceDoc (ds_fileName r) program)
    (fun targetDoc =>
       let range :=
         if String.eqb (ds_fileName r) templateFileFsPath
         then mapBackRange templateDoc (ds_textSpan r) sm
         else convertRange targetDoc (ds_textSpan r) in
       Ok (mkLocation (uri targetDoc) range)).

(** The [forEach] loop: results are pushed in order; a throw ends it. *)
Fixpoint locateAll (document templateDoc : TextDocument) (templateFileFsPath : string)
    (sm : SourceMap) (program : Program) (rs : list DocumentSpan) (results : list Location)
    : Result (list Location) :=
  match rs with
  | [] => Ok results
  | r :: rest =>
      Result_bind (locate document templateDoc templateFileFsPath sm program r)
        (fun l => locateAll document templateDoc templateFileFsPath sm program rest
                    (results ++ [l]))
  end.

(** The location [locate] makes of a span it can resolve. *)
Definition locationOf (document templateDoc : TextDocument) (templateFileFsPath : string)
    (sm : SourceMap) (program : Program) (r : DocumentSpan) : Location :=
  if String.eqb (ds_fileName r) templateFileFsPath
  then mkLocation (uri document) (mapBackRange templateDoc (ds_textSpan r) sm)
  else mkLocation (ds_fileName r)
         (convertRange
            (TextDocument_create (ds_fileName r) "vue" 0
               (default "" (program (ds_fileName r))))
            (ds_textSpan r)).

Definition liftResult {A : Type} (r : Result A) : M A :=
  match r with
  | Ok a => ret a
  | Throw e => throw e
  end.

(** [findDefinition(document, position)] *)
Definition findDefinition (config : JsValue) (document : TextDocument) (position : Position)
    : M (list Location) :=
  if negb (interpolationEnabled config) then ret []
  else
    let templateDoc := templateDocOf document in
    templateSourceMap <- updateCurrentTextDocument templateDoc ;;
    included <- query (Call_languageServiceIncludesFile (uri templateDoc))
                  (fun h => languageServiceIncludesFile h (uri templateDoc)) ;;
    if negb included then ret []
    else
      let templateFileFsPath := getFileFsPath (uri templateDoc) in
      let mappedPosition := mapFromPositionToOffset templateDoc position templateSourceMap in
      definitions <- query (Call_getDefinitionAtPosition templateFileFsPath mappedPosition)
                       (fun h => getDefinitionAtPosition h templateFileFsPath mappedPosition) ;;
      match definitions with
      | None => ret []
      | Some definitions =>
          program <- query Call_getProgram getProgram ;;
          match program with
          | None => ret []
          | Some program =>
              liftResult (locateAll document templateDoc templateFileFsPath
                            templateSourceMap program definitions [])
          end
      end.

(** [findReferences(document, position)] *)
Definition findReferences (config : JsValue) (document : TextDocument) (position : Position)
    : M (list Location) :=
  if negb (interpolationEnabled config) then ret []
  else
    let templateDoc := templateDocOf document in
    templateSourceMap <- updateCurrentTextDocument templateDoc ;;
    included <- query (Call_languageServiceIncludesFile (uri templateDoc))
                  (fun h => languageServiceIncludesFile h (uri templateDoc)) ;;
    if negb included then ret []
    else
      let templateFileFsPath := getFileFsPath (uri templateDoc) in
      let mappedPosition := mapFromPositionToOffset templateDoc position templateSourceMap in
      references <- query (Call_getReferencesAtPosition templateFileFsPath mappedPosition)
                      (fun h => getReferencesAtPosition h templateFileFsPath mappedPosition) ;;
      match references with
      | None => ret []
      | Some references =>
          program <- query Call_getProgram getProgram ;;
          match program with
          | None => ret []
          | Some program =>
              liftResult (locateAll document templateDoc templateFileFsPath
                            templateSourceMap program references [])
          end
      end.

(** [+d.code!]; [None] is [NaN]. *)
Definition codeToNumber (c : DiagCode) : option Z :=
  match c with
  | CodeNum n => Some n
  | CodeStr s => js_Number s
  | CodeNone => None
  end.

(** The cache [this.supportedCodeFixCodes], filled on first use from
    [getSupportedCodeFixes().map(Number).filter(x => !isNaN(x))]. *)
Definition supportedCodes : M (list Z) :=
  fun w =>
    match supportedCodeFixCodes w with
    | Some codes => Returned codes w
    | None =>
        let codes := omap js_Number getSupportedCodeFixes in
        Returned codes (mkWorld (host w) (Some codes) (calls w))
    end.

(** [context.diagnostics.map(d => +d.code!).filter(c => supported.has(c))];
    [NaN] is never in the set. *)
Definition fixableCodes (supported : list Z) (diagnostics : list Diagnostic) : list Z :=
  omap (fun d =>
          match codeToNumber (d_code d) with
          | Some c => if bool_decide (c ∈ supported) then Some c else None
          | None => None
          end) diagnostics.

(** [getCodeActions(document, range, _formatParams, context)]; the test
    [if (!fixableDiagnosticCodes)] is on an array and never succeeds. *)
Definition getCodeActions (config : JsValue) (document : TextDocument) (range : Range)
    (contextDiagnostics : list Diagnostic) : M (list Command) :=
  if negb (interpolationEnabled config) then ret []
  else
    let templateDoc := templateDocOf document in
    templateSourceMap <- updateCurrentTextDocument templateDoc ;;
    included <- query (Call_languageServiceIncludesFile (uri templateDoc))
                  (fun h => languageServiceIncludesFile h (uri templateDoc)) ;;
    if negb included then ret []
    else
      let templateFileFsPath := getFileFsPath (uri templateDoc) in
      let start := mapFromPositionToOffset templateDoc (range_start range) templateSourceMap in
      let end_ := mapFromPositionToOffset templateDoc (range_end range) templateSourceMap in
      supported <- supportedCodes ;;
      let fixableDiagnosticCodes := fixableCodes supported contextDiagnostics in
      let formatSettings := getFormatCodeSettings config in
      let result := [] in
      fixes <- query (Call_getCodeFixesAtPosition templateFileFsPath start end_
                        fixableDiagnosticCodes)
                 (fun h => getCodeFixesAtPosition h templateFileFsPath start end_
                             fixableDiagnosticCodes formatSettings) ;;
      result <- query Call_collectQuickFixCommands
                  (fun h => collectQuickFixCommands fixes h result) ;;
      refactorings <- query (Call_getApplicableRefactors templateFileFsPath start end_)
                        (fun h => getApplicableRefactors h templateFileFsPath start end_) ;;
      ret (collectRefactoringCommands refactorings templateFileFsPath formatSettings
             start end_ result).

(** The world an operation leaves, whether it returned or threw. *)
Definition worldOf {A : Type} (o : Outcome A) : World :=
  match o with
  | Returned _ w => w
  | Threw _ w => w
  end.

(** An outcome of an operation on [document], started in [w], that began
    by projecting the template document: the host it leaves is the host of
    [w] after that one update, and the calls it added begin with the
    update and the inclusion test. *)
Definition updatesFirst {A : Type} (document : TextDocument) (w : World)
    (o : Outcome A) : Prop :=
  host (worldOf o)
    = serviceHost_updateCurrentTextDocument (templateDocOf document) (host w) /\
  exists rest,
    calls (worldOf o)
    = (calls w ++ Call_updateCurrentTextDocument (templateDocOf document)
               :: Call_languageServiceIncludesFile (uri (templateDocOf document))
               :: rest)%list.

End Mode.
Arguments Returned {Sm Sh A} a w.
Arguments Threw {Sm Sh A} e w.
End VueInterpolationMode.

(** * Sample collaborators *)

(** These instances give the abstract collaborators a concrete shape, so
    that the statements below can be run on explicit inputs. *)
Module Sample.

(** Modelled from the spec: [util.ts] is not among the sources.  The
    synthetic names are the host path plus a suffix naming the region; the
    suffixes are the ones the comments of [vueFileInfoManager.ts] give
    ([.vue] and [.vue.ts] for the shared map, [.vue.template] for the
    template map). *)
Definition util : Util := {|
  isVueFile p := endsWith p ".vue";
  isVirtualVueFile p := endsWith p ".vue.ts";
  isVirtualVueTemplateFile p := endsWith p ".vue.template"
|}.

(** Modelled from the spec: [bridge.ts] is not among the sources; a fixed
    module name, a fixed TypeScript file name and two contents. *)
Definition bridge : Bridge := {|
  bridge_moduleName := "vue-editor-bridge";
  bridge_fileName := "vue-temp/vue-editor-bridge.ts";
  bridge_content := "import Vue from 'vue'; export default function test<T>(t: T): T { return t; }";
  bridge_oldContent := "import Vue from 'vue'; export default function test(t: any): any { return t; }"
|}.

(** File uris of a POSIX file system: the path of [file:///a/b] is [/a/b],
    and a path is absolute when it starts with a slash. *)
Definition paths : Paths := {|
  getFileFsPath u :=
    if String.prefix "file://" u then String.substring 7 (String.length u - 7) u else u;
  getFilePath u :=
    if String.prefix "file://" u then String.substring 7 (String.length u - 7) u else u;
  Uri_file_fsPath f := f;
  Uri_file_toString f := "file://" +:+ f;
  path_isAbsolute p := String.prefix "/" p
|}.

(** A cache that hands documents back as they are, and a regions facility
    whose script document is always the empty text. *)
Definition regions : Regions := {|
  jsDocuments_get d := d;
  getSingleTypeDocument_script d :=
    TextDocument_create (uri d) "javascript" (version d) ""
|}.

(** A character overwritten by whitespace; line breaks stay. *)
Definition blank (c : ascii) : ascii :=
  if Ascii.eqb c "010" || Ascii.eqb c "013" then c else " "%char.

(** The text with everything other than the script region overwritten:
    [inScript] tells whether the scan is inside the region, [skip] how
    many characters of a tag are still to be overwritten. *)
Fixpoint scriptOnly (inScript : bool) (skip : nat) (s : string) : string :=
  match s with
  | EmptyString => EmptyString
  | String c rest =>
      match skip with
      | S k => String (blank c) (scriptOnly inScript k rest)
      | O =>
          if inScript then
            if String.prefix "</script>" s
            then String (blank c) (scriptOnly false 8 rest)
            else String c (scriptOnly true 0 rest)
          else
            if String.prefix "<script>" s
            then String (blank c) (scriptOnly true 7 rest)
            else String (blank c) (scriptOnly false 0 rest)
      end
  end.

(** Modelled from the spec: the document-regions facility is not among the
    sources; section 6 has it return, from the host document text, the
    single-typed text for a requested region kind.  The layout of that
    text follows the comment on [scriptDocs] in
    [vueTypescriptLanguageService.ts]: the [.vue] file where everything
    other than the script region is overwritten by whitespace, so that
    offsets in the script document are offsets in the component.  Only a
    plain [<script>] tag is recognised here. *)
Definition paddingRegions : Regions := {|
  jsDocuments_get d := d;
  getSingleTypeDocument_script d :=
    TextDocument_create (uri d) "javascript" (version d) (scriptOnly false 0 (getText d))
|}.

(** A source map that maps nothing: every range is the empty range at the
    origin, every position offset zero. *)
Definition sourceMaps : SourceMapModule := {|
  SourceMap := unit;
  mapBackRange _ _ _ := mkRange (mkPosition 0 0) (mkPosition 0 0);
  mapFromPositionToOffset _ _ _ := 0
|}.

(** A registry with the bridging file and one registered component. *)
Definition registry : VueFileInfoManager.t :=
  @VueFileInfoManager.addScript util "/src/App.vue" SK_TS
    (@VueFileInfoManager.constructor bridge).

(** The manifest of the workspace [/ws], as [JSON.parse] returns it. *)
Definition packageJSON : JsValue :=
  JObj [("name", JStr "app");
        ("dependencies", JObj [("vue", JStr "^2.6.10")]);
        ("devDependencies", JObj [("typescript", JStr "^3.2.0")])].

Fixpoint digitsValue (s : string) (acc : N) : N :=
  match s with
  | String c rest => digitsValue rest (10 * acc + (N_of_ascii c - 48))%N
  | EmptyString => acc
  end.

(** The decimal value of a text [digits.digits], compared with 5/2; on the
    version texts used below this is [parseFloat(s) < 2.5]. *)
Definition decimal_lt_2_5 (s : string) : bool :=
  let '(int, rest) := span_digits s in
  let frac := match rest with
              | String "."%char r => fst (span_digits r)
              | _ => EmptyString
              end in
  let scale := (10 ^ N.of_nat (String.length frac))%N in
  (2 * (digitsValue int 0 * scale + digitsValue frac 0) <? 5 * scale)%N.

(** A file system with one manifest, [/ws/package.json], found from [/ws]
    only; no module resolves. *)
Definition tsModule : TsModule := {|
  CompilerOptions := unit;
  resolveModuleName _ _ _ _ := None;
  sys_readFile p :=
    if String.eqb p "/ws/package.json" then Some "<manifest of /ws>" else None;
  findConfigFile searchPath configName :=
    if String.eqb searchPath "/ws" && String.eqb configName "package.json"
    then Some "/ws/package.json" else None;
  JSON_parse text :=
    if String.eqb text "<manifest of /ws>" then Some packageJSON else None;
  parseFloat_lt_2_5 := decimal_lt_2_5
|}.

(** A component as the editor holds it, when opened and after an edit. *)
Definition appDoc : TextDocument :=
  mkTextDocument "file:///src/App.vue" "vue" 1 "<template>{{ msg }}</template>".
Definition appDocEdited : TextDocument :=
  mkTextDocument "file:///src/App.vue" "vue" 2 "<template>{{ message }}</template>".

(** A service host that keeps the documents it was given, newest last. *)
Definition serviceHost : @IServiceHost sourceMaps := {|
  HostState := list TextDocument;
  serviceHost_updateCurrentTextDocument doc st := (st ++ [doc])%list;
  serviceHost_templateSourceMap _ := (tt : @SourceMap sourceMaps)
|}.

(** A template service over the sample project.  It reports one semantic
    and one syntactic diagnostic for the projected template; a definition
    query answers with a span in the template and a span in a file the
    program does not hold; a reference query answers with a span in
    [/src/util.ts], which the program holds. *)
Definition service : @VueInterpolationMode.TemplateService sourceMaps serviceHost := {|
  VueInterpolationMode.DisplayParts := string;
  VueInterpolationMode.FormatCodeSettings := unit;
  VueInterpolationMode.CodeFixAction := string;
  VueInterpolationMode.ApplicableRefactorInfo := string;
  VueInterpolationMode.Command := string;
  VueInterpolationMode.getSemanticDiagnostics _ f :=
    if String.eqb f "/src/App.vue.template"
    then [VueInterpolationMode.mkRawDiagnostic (mkTextSpan 14 3)
            (VueInterpolationMode.MsgString "Property 'msg' does not exist on type 'Vue'.")
            2339 VueInterpolationMode.Category_Warning]
    else [];
  VueInterpolationMode.getSyntacticDiagnostics _ _ :=
    [VueInterpolationMode.mkRawDiagnostic (mkTextSpan 0 1)
       (VueInterpolationMode.MsgString "')' expected.")
       1005 VueInterpolationMode.Category_Error];
  VueInterpolationMode.getQuickInfoAtPosition _ _ _ := None;
  VueInterpolationMode.getDefinitionAtPosition _ _ _ :=
    Some [VueInterpolationMode.mkDocumentSpan "/src/App.vue.template" (mkTextSpan 14 3);
          VueInterpolationMode.mkDocumentSpan "/src/missing.ts" (mkTextSpan 0 5)];
  VueInterpolationMode.getReferencesAtPosition _ _ _ :=
    Some [VueInterpolationMode.mkDocumentSpan "/src/util.ts" (mkTextSpan 13 1)];
  VueInterpolationMode.getProgram _ :=
    Some (fun f => if String.eqb f "/src/util.ts" then Some "export const x = 1" else None);
  VueInterpolationMode.getCodeFixesAtPosition _ _ _ _ _ _ := [];
  VueInterpolationMode.getApplicableRefactors _ _ _ _ := [];
  VueInterpolationMode.languageServiceIncludesFile _ _ := true;
  VueInterpolationMode.getFormatCodeSettings _ := tt;
  VueInterpolationMode.collectQuickFixCommands fixes _ result := (result ++ fixes)%list;
  VueInterpolationMode.collectRefactoringCommands refactorings _ _ _ _ result :=
    (result ++ refactorings)%list;
  VueInterpolationMode.flattenDiagnosticMessageText m nl :=
    match m with
    | VueInterpolationMode.MsgString text => text
    | VueInterpolationMode.MsgChain chain => String.concat nl chain
    end;
  VueInterpolationMode.displayPartsToString parts := default "" parts;
  VueInterpolationMode.getSupportedCodeFixes := ["2339"];
  VueInterpolationMode.js_Number text :=
    if String.eqb text "2339" then Some 2339 else None;
  VueInterpolationMode.positionAt _ offset := mkPosition 0 offset
|}.

(** A configuration that switches the interpolation service off, and the
    empty configuration, which leaves it on. *)
Definition disabledConfig : JsValue :=
  JObj [("vetur", JObj [("experimental",
          JObj [("templateInterpolationService", JBool false)])])].
Definition emptyConfig : JsValue := JObj [].

(** The world before the mode has done anything. *)
Definition world : @VueInterpolationMode.World sourceMaps serviceHost :=
  VueInterpolationMode.mkWorld ([] : @HostState sourceMaps serviceHost) None [].

(** Two more manifests: one that lists Vue under [devDependencies] only
    and has no [dependencies], and one whose [dependencies] do not list
    Vue while its [devDependencies] list an old one. *)
Definition devOnlyPackageJSON : JsValue :=
  JObj [("name", JStr "app");
        ("devDependencies", JObj [("vue", JStr "^2.6.10")])].
Definition fallbackPackageJSON : JsValue :=
  JObj [("dependencies", JObj [("lodash", JStr "^4.17.0")]);
        ("devDependencies", JObj [("vue", JStr "~2.4.2")])].

(** A file system with three workspaces, each with a manifest, and an
    engine that resolves the relative import [./Other.vue] to the virtual
    script of that component and [./util] to a TypeScript file. *)
Definition project : TsModule := {|
  CompilerOptions := unit;
  resolveModuleName name _ _ sys :=
    match sys with
    | VueSys =>
        if String.eqb name "./Other.vue"
        then Some (mkResolvedModule "/ws/src/Other.vue.ts" Ext_Ts) else None
    | TsSys =>
        if String.eqb name "./util"
        then Some (mkResolvedModule "/ws/src/util.ts" Ext_Ts) else None
    end;
  sys_readFile p :=
    if String.eqb p "/ws/package.json" then Some "<manifest of /ws>"
    else if String.eqb p "/dev-only/package.json" then Some "<manifest of /dev-only>"
    else if String.eqb p "/fallback/package.json" then Some "<manifest of /fallback>"
    else None;
  findConfigFile searchPath configName :=
    if String.eqb configName "package.json"
    then if String.eqb searchPath "/ws" then Some "/ws/package.json"
         else if String.eqb searchPath "/dev-only" then Some "/dev-only/package.json"
         else if String.eqb searchPath "/fallback" then Some "/fallback/package.json"
         else None
    else None;
  JSON_parse text :=
    if String.eqb text "<manifest of /ws>" then Some packageJSON
    else if String.eqb text "<manifest of /dev-only>" then Some devOnlyPackageJSON
    else if String.eqb text "<manifest of /fallback>" then Some fallbackPackageJSON
    else None;
  parseFloat_lt_2_5 := decimal_lt_2_5
|}.

(** The component [Other.vue], open in the editor as a TypeScript
    component. *)
Definition openOther : gmap string TextDocument :=
  {[ "/ws/src/Other.vue" :=
       mkTextDocument "file:///ws/src/Other.vue" "typescript" 3 "export default {}" ]}.

(** The sample template service with the template file outside its
    program. *)
Definition excludingService : @VueInterpolationMode.TemplateService sourceMaps serviceHost := {|
  VueInterpolationMode.DisplayParts := string;
  VueInterpolationMode.FormatCodeSettings := unit;
  VueInterpolationMode.CodeFixAction := string;
  VueInterpolationMode.ApplicableRefactorInfo := string;
  VueInterpolationMode.Command := string;
  VueInterpolationMode.getSemanticDiagnostics :=
    @VueInterpolationMode.getSemanticDiagnostics _ _ service;
  VueInterpolationMode.getSyntacticDiagnostics :=
    @VueInterpolationMode.getSyntacticDiagnostics _ _ service;
  VueInterpolationMode.getQuickInfoAtPosition :=
    @VueInterpolationMode.getQuickInfoAtPosition _ _ service;
  VueInterpolationMode.getDefinitionAtPosition :=
    @VueInterpolationMode.getDefinitionAtPosition _ _ service;
  VueInterpolationMode.getReferencesAtPosition :=
    @VueInterpolationMode.getReferencesAtPosition _ _ service;
  VueInterpolationMode.getProgram := @VueInterpolationMode.getProgram _ _ service;
  VueInterpolationMode.getCodeFixesAtPosition :=
    @VueInterpolationMode.getCodeFixesAtPosition _ _ service;
  VueInterpolationMode.getApplicableRefactors :=
    @VueInterpolationMode.getApplicableRefactors _ _ service;
  VueInterpolationMode.languageServiceIncludesFile _ _ := false;
  VueInterpolationMode.getFormatCodeSettings :=
    @VueInterpolationMode.getFormatCodeSettings _ _ service;
  VueInterpolationMode.collectQuickFixCommands :=
    @VueInterpolationMode.collectQuickFixCommands _ _ service;
  VueInterpolationMode.collectRefactoringCommands :=
    @VueInterpolationMode.collectRefactoringCommands _ _ service;
  VueInterpolationMode.flattenDiagnosticMessageText :=
    @VueInterpolationMode.flattenDiagnosticMessageText _ _ service;
  VueInterpolationMode.displayPartsToString :=
    @VueInterpolationMode.displayPartsToString _ _ service;
  VueInterpolationMode.getSupportedCodeFixes :=
    @VueInterpolationMode.getSupportedCodeFixes _ _ service;
  VueInterpolationMode.js_Number := @VueInterpolationMode.js_Number _ _ service;
  VueInterpolationMode.positionAt := @VueInterpolationMode.positionAt _ _ service
|}.

(** A file system with three components and no manifest: [Hello.vue] has
    a template and no script block, [Counter.vue] has both, and
    [Empty.vue] is an empty file. *)
Definition components : TsModule := {|
  CompilerOptions := unit;
  resolveModuleName _ _ _ _ := None;
  sys_readFile p :=
    if String.eqb p "/ws/src/Hello.vue" then Some "<template><p>Hello</p></template>"
    else if String.eqb p "/ws/src/Counter.vue" then Some "<template><p>one</p></template><script>export default {}</script>"
    else if String.eqb p "/ws/src/Empty.vue" then Some ""
    else None;
  findConfigFile _ _ := None;
  JSON_parse _ := None;
  parseFloat_lt_2_5 := decimal_lt_2_5
|}.


(** The program of the sample service. *)
Definition program : VueInterpolationMode.Program :=
  fun f => if String.eqb f "/src/util.ts" then Some "export const x = 1" else None.

End Sample.

(** * JavaScript built-ins: the version pattern and the configuration path *)

Module JavaScriptFacts.

Lemma span_digits_spec s d r :
  span_digits s = (d, r) -> s = d +:+ r /\ all_digits d = true.
Proof.
  revert d r. induction s as [|c s IH]; intros d r; simpl.
  - by intros [= <- <-].
  - destruct (is_digit c) eqn:Hc.
    + destruct (span_digits s) as [d' r'] eqn:Hs. intros [= <- <-].
      destruct (IH d' r' eq_refl) as [-> Hd]. simpl. by rewrite Hc, Hd.
    + by intros [= <- <-].
Qed.

(** A match at the first character is digits, a dot and digits, and a
    prefix of the text. *)
Lemma match_version_here_shape s m :
  match_version_here s = Some m ->
  exists d1 d2 post,
    s = d1 +:+ String "."%char (d2 +:+ post) /\
    m = d1 +:+ String "."%char d2 /\
    d1 <> "" /\ d2 <> "" /\ all_digits d1 = true /\ all_digits d2 = true.
Proof.
  unfold match_version_here.
  destruct (span_digits s) as [d1 r1] eqn:H1.
  destruct (String.eqb_spec d1 "") as [|Hd1]; [done|].
  destruct r1 as [|c r2]; [done|].
  destruct (Ascii.eqb_spec c "."%char) as [->|Hc].
  - destruct (span_digits r2) as [d2 post] eqn:H2.
    destruct (String.eqb_spec d2 "") as [|Hd2]; [done|].
    intros [= <-].
    apply span_digits_spec in H1 as [-> Hall1].
    apply span_digits_spec in H2 as [-> Hall2].
    exists d1, d2, post. done.
  - intros Hm. exfalso.
    destruct c as [[] [] [] [] [] [] [] []]; try discriminate Hm. by apply Hc.
Qed.

(** What [s.match(/\d+\.\d+/)[0]] returns, when there is a match, is a
    piece of the text of the form digits, dot, digits. *)
Lemma match_version_shape s m :
  match_version s = Some m ->
  exists pre d1 d2 post,
    s = pre +:+ (d1 +:+ String "."%char (d2 +:+ post)) /\
    m = d1 +:+ String "."%char d2 /\
    d1 <> "" /\ d2 <> "" /\ all_digits d1 = true /\ all_digits d2 = true.
Proof.
  induction s as [|c s IH].
  - done.
  - change (match_version (String c s))
      with (match match_version_here (String c s) with
            | Some m' => Some m'
            | None => match_version s
            end).
    destruct (match_version_here (String c s)) eqn:Hhere.
    + intros [= <-]. apply match_version_here_shape in Hhere.
      destruct Hhere as (d1 & d2 & post & ? & ? & ? & ? & ? & ?).
      exists "", d1, d2, post. done.
    + intros Hm. destruct (IH Hm) as (pre & d1 & d2 & post & -> & ? & ? & ? & ? & ?).
      exists (String c pre), d1, d2, post. done.
Qed.

(** Version texts as manifests write them. *)
Example match_version_caret : match_version "^2.6.10" = Some "2.6".
Proof. reflexivity. Qed.

Example match_version_range : match_version ">=2.5.0 <3" = Some "2.5".
Proof. reflexivity. Qed.

Example match_version_tag : match_version "latest" = None.
Proof. reflexivity. Qed.

Example match_version_major_only : match_version "2" = None.
Proof. reflexivity. Qed.

(** The configuration path: a missing key gives the default, which is
    [true]; a key that is present decides by its truthiness, [null]
    included. *)
Example lodash_get_missing :
  lodash_get (JObj [("vetur", JObj [])])
    ["vetur"; "experimental"; "templateInterpolationService"] (JBool true) = JBool true.
Proof. reflexivity. Qed.

Example lodash_get_undefined_object :
  lodash_get JUndefined ["vetur"; "experimental"; "templateInterpolationService"]
    (JBool true) = JBool true.
Proof. reflexivity. Qed.

Example lodash_get_null_leaf :
  lodash_get Sample.disabledConfig ["vetur"; "experimental"] (JBool true)
  = JObj [("templateInterpolationService", JBool false)] /\
  lodash_get (JObj [("vetur", JObj [("experimental",
                JObj [("templateInterpolationService", JNull)])])])
    ["vetur"; "experimental"; "templateInterpolationService"] (JBool true) = JNull.
Proof. split; reflexivity. Qed.

Example endsWith_examples :
  endsWith "/src/App.vue" ".vue" = true /\
  endsWith "/src/App.vue.ts" ".vue" = false /\
  endsWith "vue" ".vue" = false /\
  dropLast 3 "/src/App.vue.ts" = "/src/App.vue".
Proof. repeat split; reflexivity. Qed.

End JavaScriptFacts.

(** * The registry: version and kind lookup, registration *)

Module VueFileInfoManagerFacts.
Import VueFileInfoManager.

Section Facts.
Context {Ut : Util} {Br : Bridge}.

Lemma addShared_shared fileName kind m :
  sharedFileInfoMap (addShared fileName kind m) =
    if (isVueFile fileName || isVirtualVueFile fileName)
       && negb (bool_decide (is_Some (sharedFileInfoMap m !! fileName)))
    then <[fileName := mkFileInfo fileName "0" kind]> (sharedFileInfoMap m)
    else sharedFileInfoMap m.
Proof.
  unfold addShared.
  destruct (isVueFile fileName || isVirtualVueFile fileName); simpl; [|done].
  by destruct (sharedFileInfoMap m !! fileName).
Qed.

Lemma addShared_template fileName kind m :
  virtualVueTemplateFileInfoMap (addShared fileName kind m) = virtualVueTemplateFileInfoMap m.
Proof.
  unfold addShared.
  destruct (isVueFile fileName || isVirtualVueFile fileName); [|done].
  by destruct (sharedFileInfoMap m !! fileName).
Qed.

Lemma addTemplate_template fileName kind m :
  virtualVueTemplateFileInfoMap (addTemplate fileName kind m) =
    if isVirtualVueTemplateFile fileName
       && negb (bool_decide (is_Some (virtualVueTemplateFileInfoMap m !! fileName)))
    then <[fileName := mkFileInfo fileName "0" kind]> (virtualVueTemplateFileInfoMap m)
    else virtualVueTemplateFileInfoMap m.
Proof.
  unfold addTemplate.
  destruct (isVirtualVueTemplateFile fileName); simpl; [|done].
  by destruct (virtualVueTemplateFileInfoMap m !! fileName).
Qed.

Lemma addTemplate_shared fileName kind m :
  sharedFileInfoMap (addTemplate fileName kind m) = sharedFileInfoMap m.
Proof.
  unfold addTemplate.
  destruct (isVirtualVueTemplateFile fileName); [|done].
  by destruct (virtualVueTemplateFileInfoMap m !! fileName).
Qed.

(** Registration never removes or rewrites an entry of the shared map. *)
Lemma addScript_shared_preserved fileName kind m g info :
  sharedFileInfoMap m !! g = Some info ->
  sharedFileInfoMap (addScript fileName kind m) !! g = Some info.
Proof.
  intros Hg. unfold addScript. rewrite addTemplate_shared, addShared_shared.
  destruct (_ && _) eqn:E; [|done].
  apply andb_true_iff in E as [_ E]. apply negb_true_iff, bool_decide_eq_false in E.
  rewrite lookup_insert_ne; [done|]. intros ->. apply E. eauto.
Qed.

(** Registration never removes or rewrites an entry of the template map. *)
Lemma addScript_template_preserved fileName kind m g info :
  virtualVueTemplateFileInfoMap m !! g = Some info ->
  virtualVueTemplateFileInfoMap (addScript fileName kind m) !! g = Some info.
Proof.
  intros Hg. unfold addScript. rewrite addTemplate_template, addShared_template.
  destruct (_ && _) eqn:E; [|done].
  apply andb_true_iff in E as [_ E]. apply negb_true_iff, bool_decide_eq_false in E.
  rewrite lookup_insert_ne; [done|]. intros ->. apply E. eauto.
Qed.

(** The bridging file is registered as TypeScript from construction on, and
    no registration changes that. *)
Lemma reachable_bridge m :
  reachable m ->
  sharedFileInfoMap m !! bridge_fileName = Some (mkFileInfo bridge_fileName "0" SK_TS).
Proof.
  induction 1 as [|m fileName kind _ IH].
  - simpl. apply lookup_insert_eq.
  - by apply addScript_shared_preserved.
Qed.

(** Every version the registry stores is the initial one: nothing in the
    class writes a version after the entry is made. *)
Lemma reachable_versions m :
  reachable m ->
  (forall g info, sharedFileInfoMap m !! g = Some info -> fi_version info = "0") /\
  (forall g info, virtualVueTemplateFileInfoMap m !! g = Some info -> fi_version info = "0").
Proof.
  induction 1 as [|m fileName kind _ [IH1 IH2]].
  - split; intros g info; simpl.
    + rewrite lookup_insert. case_decide; [|by rewrite lookup_empty].
      by intros [= <-].
    + by rewrite lookup_empty.
  - split; intros g info; unfold addScript.
    + rewrite addTemplate_shared, addShared_shared.
      destruct (_ && _); [|by apply IH1].
      rewrite lookup_insert. case_decide; [by intros [= <-] | by apply IH1].
    + rewrite addTemplate_template, addShared_template.
      destruct (_ && _); [|by apply IH2].
      rewrite lookup_insert. case_decide; [by intros [= <-] | by apply IH2].
Qed.

(** A read finds an entry of the dictionary's own first. *)
Lemma read_own (d : gmap string FileInfo) fileName info :
  d !! fileName = Some info -> read d fileName = OwnEntry info.
Proof. unfold read. by intros ->. Qed.

(** Without an own entry, a read finds an inherited member exactly under
    the names of [Object.prototype]. *)
Lemma read_absent (d : gmap string FileInfo) fileName :
  d !! fileName = None ->
  read d fileName = if inheritedMember fileName then InheritedMember else NotFound.
Proof. unfold read. by intros ->. Qed.

(** Under the name of an inherited member that the shared map does not
    hold itself, both lookups answer [undefined], and nothing is logged. *)
Lemma lookups_inherited (m : t) fileName :
  inheritedMember fileName = true ->
  sharedFileInfoMap m !! fileName = None ->
  getScriptVersion m fileName = None /\ getScriptKind m fileName = (None, []).
Proof.
  intros Hi Hs. unfold getScriptVersion, getScriptKind.
  by rewrite (read_absent _ _ Hs), Hi.
Qed.

(** X31: the version lookup, case by case: the version stored in the shared
    (persistent) map if the name is there; else, for a name no object
    inherits, the version stored in the template (transient) map if it is
    there and ["0"] if it is in neither; under an inherited name that the
    shared map does not hold, [undefined]. *)
Theorem getScriptVersion_lookup (m : t) (fileName : string) :
  (inheritedMember fileName = false ->
   sharedFileInfoMap m !! fileName = None ->
   virtualVueTemplateFileInfoMap m !! fileName = None ->
   getScriptVersion m fileName = Some "0") /\
  (forall info, sharedFileInfoMap m !! fileName = Some info ->
     getScriptVersion m fileName = Some (fi_version info)) /\
  (forall info, inheritedMember fileName = false ->
     sharedFileInfoMap m !! fileName = None ->
     virtualVueTemplateFileInfoMap m !! fileName = Some info ->
     getScriptVersion m fileName = Some (fi_version info)) /\
  (inheritedMember fileName = true ->
   sharedFileInfoMap m !! fileName = None ->
   getScriptVersion m fileName = None).
Proof.
  repeat split.
  - intros Hi Hs Ht. unfold getScriptVersion.
    by rewrite (read_absent _ _ Hs), (read_absent _ _ Ht), Hi.
  - intros info Hs. unfold getScriptVersion. by rewrite (read_own _ _ _ Hs).
  - intros info Hi Hs Ht. unfold getScriptVersion.
    by rewrite (read_absent _ _ Hs), Hi, (read_own _ _ _ Ht).
  - intros Hi Hs. by apply lookups_inherited.
Qed.

(** X32: the kind lookup, case by case.  In every registry the program can
    hold, the kind of the bridging file is TypeScript; the kind of any file
    is the one stored in the shared map if it is there; else, for a name no
    object inherits, the one stored in the template map if it is there, and
    otherwise JavaScript, with one warning line written to the console;
    under an inherited name that the shared map does not hold, [undefined]
    and no warning. *)
Theorem getScriptKind_lookup (m : t) (fileName : string) :
  reachable m ->
  getScriptKind m bridge_fileName = (Some SK_TS, []) /\
  (forall info, sharedFileInfoMap m !! fileName = Some info ->
     getScriptKind m fileName = (Some (fi_kind info), [])) /\
  (forall info, inheritedMember fileName = false ->
     sharedFileInfoMap m !! fileName = None ->
     virtualVueTemplateFileInfoMap m !! fileName = Some info ->
     getScriptKind m fileName = (Some (fi_kind info), [])) /\
  (inheritedMember fileName = false ->
   sharedFileInfoMap m !! fileName = None ->
   virtualVueTemplateFileInfoMap m !! fileName = None ->
   getScriptKind m fileName = (Some SK_JS, ["Can't find ScriptKind for " +:+ fileName])) /\
  (inheritedMember fileName = true ->
   sharedFileInfoMap m !! fileName = None ->
   getScriptKind m fileName = (None, [])).
Proof.
  intros Hm. repeat split.
  - unfold getScriptKind. by rewrite (read_own _ _ _ (reachable_bridge m Hm)).
  - intros info Hs. unfold getScriptKind. by rewrite (read_own _ _ _ Hs).
  - intros info Hi Hs Ht. unfold getScriptKind.
    by rewrite (read_absent _ _ Hs), Hi, (read_own _ _ _ Ht).
  - intros Hi Hs Ht. unfold getScriptKind.
    by rewrite (read_absent _ _ Hs), (read_absent _ _ Ht), Hi.
  - intros Hi Hs. by apply lookups_inherited.
Qed.

(** C8: registering inserts a fresh entry with version ["0"] into the
    shared map exactly when the name is a Vue file or a virtual Vue script
    and has no entry there, and into the template map exactly when the
    name is a virtual template file and has no entry there; a name that is
    present in every map whose pattern it matches leaves the registry as
    it was; no existing entry is ever changed; and registering twice, even
    with another kind, is registering once. *)
Theorem addScript_idempotent (m : t) (fileName : string) (kind kind' : ScriptKind) :
  sharedFileInfoMap (addScript fileName kind m) =
    (if (isVueFile fileName || isVirtualVueFile fileName)
        && negb (bool_decide (is_Some (sharedFileInfoMap m !! fileName)))
     then <[fileName := mkFileInfo fileName "0" kind]> (sharedFileInfoMap m)
     else sharedFileInfoMap m) /\
  virtualVueTemplateFileInfoMap (addScript fileName kind m) =
    (if isVirtualVueTemplateFile fileName
        && negb (bool_decide (is_Some (virtualVueTemplateFileInfoMap m !! fileName)))
     then <[fileName := mkFileInfo fileName "0" kind]> (virtualVueTemplateFileInfoMap m)
     else virtualVueTemplateFileInfoMap m) /\
  ((isVueFile fileName || isVirtualVueFile fileName = true ->
      is_Some (sharedFileInfoMap m !! fileName)) ->
   (isVirtualVueTemplateFile fileName = true ->
      is_Some (virtualVueTemplateFileInfoMap m !! fileName)) ->
   addScript fileName kind m = m) /\
  (forall g info, sharedFileInfoMap m !! g = Some info ->
     sharedFileInfoMap (addScript fileName kind m) !! g = Some info) /\
  (forall g info, virtualVueTemplateFileInfoMap m !! g = Some info ->
     virtualVueTemplateFileInfoMap (addScript fileName kind m) !! g = Some info) /\
  addScript fileName kind' (addScript fileName kind m) = addScript fileName kind m.
Proof.
  assert (Hnoop : forall k' m',
    (isVueFile fileName || isVirtualVueFile fileName = true ->
       is_Some (sharedFileInfoMap m' !! fileName)) ->
    (isVirtualVueTemplateFile fileName = true ->
       is_Some (virtualVueTemplateFileInfoMap m' !! fileName)) ->
    addScript fileName k' m' = m').
  { intros k' m' Hs Ht. unfold addScript, addTemplate, addShared.
    destruct (isVueFile fileName || isVirtualVueFile fileName).
    - destruct (Hs eq_refl) as [x ->].
      destruct (isVirtualVueTemplateFile fileName); [|done].
      by destruct (Ht eq_refl) as [y ->].
    - destruct (isVirtualVueTemplateFile fileName); [|done].
      by destruct (Ht eq_refl) as [y ->]. }
  split; [unfold addScript; by rewrite addTemplate_shared, addShared_shared|].
  split; [unfold addScript; by rewrite addTemplate_template, addShared_template|].
  split; [apply Hnoop|].
  split; [intros g info; apply addScript_shared_preserved|].
  split; [intros g info; apply addScript_template_preserved|].
  apply Hnoop.
  - intros Hp. unfold addScript. rewrite addTemplate_shared, addShared_shared, Hp. simpl.
    destruct (sharedFileInfoMap m !! fileName) eqn:E; simpl.
    + rewrite E. eauto.
    + rewrite lookup_insert_eq. eauto.
  - intros Hp. unfold addScript. rewrite addTemplate_template, addShared_template, Hp. simpl.
    destruct (virtualVueTemplateFileInfoMap m !! fileName) eqn:E; simpl.
    + rewrite E. eauto.
    + rewrite lookup_insert_eq. eauto.
Qed.

End Facts.

Lemma sample_registry_reachable : @reachable Sample.util Sample.bridge Sample.registry.
Proof. apply reachable_add, reachable_new. Qed.

Lemma getScriptVersion_lookup_witness :
  getScriptVersion Sample.registry "/src/util.ts" = Some "0" /\
  getScriptVersion Sample.registry "/src/App.vue" = Some "0" /\
  getScriptVersion Sample.registry "toString" = None.
Proof.
  split; [|split].
  - apply (proj1 (getScriptVersion_lookup Sample.registry "/src/util.ts"));
      vm_compute; reflexivity.
  - apply (proj1 (proj2 (getScriptVersion_lookup Sample.registry "/src/App.vue"))
             (mkFileInfo "/src/App.vue" "0" SK_TS)).
    vm_compute; reflexivity.
  - apply (proj2 (proj2 (proj2 (getScriptVersion_lookup Sample.registry "toString"))));
      vm_compute; reflexivity.
Defined.

Lemma getScriptKind_lookup_witness :
  getScriptKind Sample.registry "vue-temp/vue-editor-bridge.ts" = (Some SK_TS, []) /\
  getScriptKind Sample.registry "/src/App.vue" = (Some SK_TS, []) /\
  getScriptKind Sample.registry "/src/util.ts"
    = (Some SK_JS, ["Can't find ScriptKind for /src/util.ts"]).
Proof.
  pose proof (@getScriptKind_lookup Sample.util Sample.bridge Sample.registry
                "/src/App.vue" sample_registry_reachable) as (Hbridge & Hshared & _).
  pose proof (@getScriptKind_lookup Sample.util Sample.bridge Sample.registry
                "/src/util.ts" sample_registry_reachable) as (_ & _ & _ & Habsent & _).
  split; [exact Hbridge|]. split.
  - apply (Hshared (mkFileInfo "/src/App.vue" "0" SK_TS)). vm_compute; reflexivity.
  - apply Habsent; vm_compute; reflexivity.
Defined.

(** C6: the registry as constructed, with one component registered, holds
    no entry named [constructor] in either map, and yet the version lookup
    does not answer ["0"] for that name: the read of the shared dictionary
    finds the member every object inherits under it, and the lookup
    returns that member's [version], which is [undefined]. *)
Theorem getScriptVersion_inherited_name :
  sharedFileInfoMap Sample.registry !! "constructor" = None /\
  virtualVueTemplateFileInfoMap Sample.registry !! "constructor" = None /\
  getScriptVersion Sample.registry "constructor" = None /\
  getScriptVersion Sample.registry "constructor" <> Some "0".
Proof. vm_compute. repeat split; discriminate. Qed.

(** C7: in the same registry the kind lookup for the name [toString],
    which is in neither map, does not fall back to JavaScript and writes no
    warning: it returns the [kind] of the inherited member, [undefined]. *)
Theorem getScriptKind_inherited_name :
  sharedFileInfoMap Sample.registry !! "toString" = None /\
  virtualVueTemplateFileInfoMap Sample.registry !! "toString" = None /\
  getScriptKind Sample.registry "toString" = (None, []) /\
  getScriptKind Sample.registry "toString"
    <> (Some SK_JS, ["Can't find ScriptKind for toString"]).
Proof. vm_compute. repeat split; discriminate. Qed.

Lemma addScript_idempotent_witness :
  @addScript Sample.util "/src/App.vue" SK_JS Sample.registry = Sample.registry /\
  @addScript Sample.util "/src/App.vue.template" SK_TS
    (@addScript Sample.util "/src/App.vue.template" SK_JS Sample.registry)
  = @addScript Sample.util "/src/App.vue.template" SK_JS Sample.registry.
Proof.
  split.
  - apply (proj1 (proj2 (proj2
      (@addScript_idempotent Sample.util Sample.registry "/src/App.vue" SK_JS SK_JS)))).
    + intros _. exists (mkFileInfo "/src/App.vue" "0" SK_TS). vm_compute; reflexivity.
    + intros Hp. vm_compute in Hp. discriminate Hp.
  - apply (@addScript_idempotent Sample.util Sample.registry "/src/App.vue.template"
             SK_JS SK_TS).
Defined.

End VueFileInfoManagerFacts.

(** * The service host: module resolution, snapshots, the Vue-version probe *)

Module ServiceHostFacts.
Import ServiceHost.

Section Facts.
Context {Ut : Util} {Br : Bridge} {Pa : Paths} {Rg : Regions} {Ts : TsModule}.

Lemma resolveOne_bridge h scriptDocs containingFile :
  resolveOne h scriptDocs containingFile bridge_moduleName
  = Some (mkResolvedModule bridge_fileName Ext_Ts).
Proof. unfold resolveOne. by rewrite String.eqb_refl. Qed.

(** C4: whatever the host, the open documents, the file system and the
    containing file, every position of the name list that holds the
    bridging module name resolves to the bridging file with the TypeScript
    extension; the result has one entry per name. *)
Theorem resolveModuleNames_bridge (h : Host) (scriptDocs : gmap string TextDocument)
    (moduleNames : list string) (containingFile : string) (i : nat) :
  moduleNames !! i = Some bridge_moduleName ->
  resolveModuleNames h scriptDocs moduleNames containingFile !! i
    = Some (Some (mkResolvedModule bridge_fileName Ext_Ts)) /\
  length (resolveModuleNames h scriptDocs moduleNames containingFile) = length moduleNames.
Proof.
  intros Hi. unfold resolveModuleNames. split.
  - change (map ?f ?l) with (f <$> l). by rewrite list_lookup_fmap, Hi; simpl; rewrite resolveOne_bridge.
  - apply length_map.
Qed.

(** X33: for a Vue file that is not the bridging file and has no document
    among the open ones, the snapshot is made from the text on disk (the
    empty text when there is none): it is the text of the script document
    the regions facility makes of that text, and the placeholder
    [export default {};] exactly when that script document is the empty
    text. *)
Theorem getScriptSnapshot_unopened_vue (h : Host) (scriptDocs : gmap string TextDocument)
    (fileName : string) :
  fileName <> bridge_fileName ->
  isVueFile fileName = true ->
  scriptDocs !! getNormalizedFileFsPath fileName = None ->
  let diskText := optstr_or (sys_readFile (getNormalizedFileFsPath fileName)) "" in
  let script :=
    getText (getSingleTypeDocument_script
               (TextDocument_create "test://test/test.vue" "vue" 0 diskText)) in
  snapshot_text (getScriptSnapshot h scriptDocs fileName)
    = (if String.eqb script "" then "export default {};" else script) /\
  (script = "" ->
   snapshot_text (getScriptSnapshot h scriptDocs fileName) = "export default {};") /\
  (script <> "" ->
   snapshot_text (getScriptSnapshot h scriptDocs fileName) = script).
Proof.
  intros Hne Hvue Hdoc diskText script.
  assert (Hs : snapshot_text (getScriptSnapshot h scriptDocs fileName)
               = if String.eqb script "" then "export default {};" else script).
  { unfold getScriptSnapshot.
    destruct (String.eqb_spec fileName bridge_fileName) as [E|_]; [done|].
    rewrite Hdoc, Hvue. simpl. done. }
  split; [exact Hs|]. split.
  - intros E. rewrite Hs, E. done.
  - intros E. rewrite Hs. by destruct (String.eqb_spec script "").
Qed.

(** What a probe that returns has found on the way. *)
Lemma probe_body_returns packageJSONPath b :
  probe_body packageJSONPath = Ok b ->
  exists p text packageJSON s vueDep,
    packageJSONPath = Some p /\
    sys_readFile p = Some text /\
    JSON_parse text = Some packageJSON /\
    listsVue packageJSON s /\
    match_version s = Some vueDep /\
    b = parseFloat_lt_2_5 vueDep.
Proof.
  unfold probe_body, read_packageJSON.
  destruct packageJSONPath as [p|]; simpl; [|done].
  destruct (String.eqb p ""); simpl; [done|].
  destruct (sys_readFile p) as [text|] eqn:Hread; simpl; [|done].
  destruct (JSON_parse text) as [pkg|] eqn:Hparse; simpl; [|done].
  unfold member.
  destruct (nullish pkg) eqn:Hpkg; simpl; [done|].
  destruct (nullish (prop pkg "dependencies")) eqn:Hdeps; simpl; [done|].
  destruct (truthy (prop (prop pkg "dependencies") "vue")) eqn:Htruthy; simpl.
  - destruct (prop (prop pkg "dependencies") "vue") as [| | | |s| |] eqn:Hvue; simpl; try done.
    destruct (match_version s) as [vueDep|] eqn:Hmatch; simpl; [|done].
    intros [= <-]. exists p, text, pkg, s, vueDep.
    repeat split; try done. by left.
  - destruct (nullish (prop pkg "devDependencies")) eqn:Hdev; simpl; [done|].
    destruct (prop (prop pkg "devDependencies") "vue") as [| | | |s| |] eqn:Hvue;
      simpl; try done.
    destruct (match_version s) as [vueDep|] eqn:Hmatch; simpl; [|done].
    intros [= <-]. exists p, text, pkg, s, vueDep.
    repeat split; try done. by right.
Qed.

Lemma isUsingOldVueVersion_false workspace :
  isUsingOldVueVersion workspace = false ->
  exists p text packageJSON s vueDep,
    findConfigFile workspace "package.json" = Some p /\
    sys_readFile p = Some text /\
    JSON_parse text = Some packageJSON /\
    listsVue packageJSON s /\
    match_version s = Some vueDep /\
    parseFloat_lt_2_5 vueDep = false.
Proof.
  unfold isUsingOldVueVersion.
  destruct (probe_body _) as [b|e] eqn:Hprobe; [|done].
  intros ->. apply probe_body_returns in Hprobe.
  destruct Hprobe as (p & text & pkg & s & vueDep & ? & ? & ? & ? & ? & ?).
  exists p, text, pkg, s, vueDep. done.
Qed.

(** C10: the content served for the bridging file is the old one when the
    probe, run once when the host is created, reports an old Vue, and the
    new one otherwise.  The probe reports an old Vue, and the old content
    is served, whenever the body of the probe throws — in particular when
    no manifest is found, when the manifest cannot be read, when it does
    not parse, and when it lists no Vue dependency with a [digits.digits]
    version.  The new content is served only when a manifest was found,
    read and parsed, and lists a Vue dependency whose version does not
    parse below 2.5. *)
Theorem bridge_content_fails_closed (opts : CompilerOptions) (includeVirtual : bool)
    (workspace : string) (scriptDocs : gmap string TextDocument) :
  let h := createLanguageServiceHost opts includeVirtual workspace in
  let packageJSONPath := findConfigFile workspace "package.json" in
  let served := snapshot_text (getScriptSnapshot h scriptDocs bridge_fileName) in
  let servesOld := isOldVersion h = true /\ served = bridge_oldContent in
  served = (if isOldVersion h then bridge_oldContent else bridge_content) /\
  (forall e, probe_body packageJSONPath = Throw e -> servesOld) /\
  (packageJSONPath = None -> servesOld) /\
  (forall p, packageJSONPath = Some p -> sys_readFile p = None -> servesOld) /\
  (forall p text, packageJSONPath = Some p -> sys_readFile p = Some text ->
     JSON_parse text = None -> servesOld) /\
  (forall p text packageJSON, packageJSONPath = Some p -> sys_readFile p = Some text ->
     JSON_parse text = Some packageJSON ->
     (forall s, listsVue packageJSON s -> match_version s = None) ->
     servesOld) /\
  (isOldVersion h = false ->
   served = bridge_content /\
   exists p text packageJSON s vueDep,
     packageJSONPath = Some p /\
     sys_readFile p = Some text /\
     JSON_parse text = Some packageJSON /\
     listsVue packageJSON s /\
     match_version s = Some vueDep /\
     parseFloat_lt_2_5 vueDep = false).
Proof.
  intros h packageJSONPath served servesOld.
  assert (Hserved : served = if isOldVersion h then bridge_oldContent else bridge_content).
  { unfold served, getScriptSnapshot. by rewrite String.eqb_refl. }
  assert (Hold : isOldVersion h = true -> servesOld).
  { intros E. split; [exact E|]. by rewrite Hserved, E. }
  assert (Hclosed : forall Found : Prop,
            (forall p text packageJSON s vueDep,
               packageJSONPath = Some p -> sys_readFile p = Some text ->
               JSON_parse text = Some packageJSON -> listsVue packageJSON s ->
               match_version s = Some vueDep -> Found) ->
            (Found -> False) -> servesOld).
  { intros Found Hfound Hnot. apply Hold.
    destruct (isOldVersion h) eqn:E; [done|].
    apply isUsingOldVueVersion_false in E.
    destruct E as (p & text & pkg & s & vueDep & ? & ? & ? & ? & ? & _).
    exfalso. eauto. }
  split; [exact Hserved|].
  split.
  { intros e He. apply Hold. simpl. unfold isUsingOldVueVersion.
    fold packageJSONPath. by rewrite He. }
  split.
  { intros Hnone. apply (Hclosed False); [|done]. intros; congruence. }
  split.
  { intros p Hp Hread. apply (Hclosed False); [|done]. intros; congruence. }
  split.
  { intros p text Hp Hread Hparse. apply (Hclosed False); [|done]. intros; congruence. }
  split.
  { intros p text pkg Hp Hread Hparse Hnone. apply (Hclosed False); [|done].
    intros p' text' pkg' s vueDep Hp' Hread' Hparse' Hlists Hmatch.
    assert (pkg' = pkg) as -> by congruence.
    rewrite (Hnone s Hlists) in Hmatch. done. }
  intros Hnew. split.
  - by rewrite Hserved, Hnew.
  - by apply isUsingOldVueVersion_false.
Qed.

End Facts.

Lemma resolveModuleNames_bridge_witness :
  @resolveModuleNames Sample.util Sample.bridge Sample.paths Sample.regions Sample.tsModule
    (@createLanguageServiceHost Sample.tsModule tt false "/ws") ∅
    ["./Other.vue"; "vue-editor-bridge"] "/ws/src/App.vue" !! 1%nat
  = Some (Some (mkResolvedModule "vue-temp/vue-editor-bridge.ts" Ext_Ts)).
Proof.
  apply (proj1 (@resolveModuleNames_bridge Sample.util Sample.bridge Sample.paths
                  Sample.regions Sample.tsModule
                  (@createLanguageServiceHost Sample.tsModule tt false "/ws") ∅
                  ["./Other.vue"; "vue-editor-bridge"] "/ws/src/App.vue" 1%nat
                  eq_refl)).
Defined.

Lemma getScriptSnapshot_unopened_vue_witness :
  snapshot_text
    (@getScriptSnapshot Sample.util Sample.bridge Sample.paths Sample.paddingRegions
       Sample.components
       (@createLanguageServiceHost Sample.components tt false "/ws") ∅ "/ws/src/Counter.vue")
  = "                                       export default {}         " /\
  snapshot_text
    (@getScriptSnapshot Sample.util Sample.bridge Sample.paths Sample.paddingRegions
       Sample.components
       (@createLanguageServiceHost Sample.components tt false "/ws") ∅ "/ws/src/Empty.vue")
  = "export default {};".
Proof.
  split.
  - apply (proj2 (proj2
      (@getScriptSnapshot_unopened_vue Sample.util Sample.bridge Sample.paths
         Sample.paddingRegions Sample.components
         (@createLanguageServiceHost Sample.components tt false "/ws") ∅
         "/ws/src/Counter.vue" ltac:(discriminate) eq_refl eq_refl))).
    discriminate.
  - apply (proj1 (proj2
      (@getScriptSnapshot_unopened_vue Sample.util Sample.bridge Sample.paths
         Sample.paddingRegions Sample.components
         (@createLanguageServiceHost Sample.components tt false "/ws") ∅
         "/ws/src/Empty.vue" ltac:(discriminate) eq_refl eq_refl))).
    reflexivity.
Defined.


Lemma bridge_content_fails_closed_witness :
  snapshot_text
    (@getScriptSnapshot Sample.util Sample.bridge Sample.paths Sample.regions Sample.tsModule
       (@createLanguageServiceHost Sample.tsModule tt false "/ws") ∅
       "vue-temp/vue-editor-bridge.ts")
  = @bridge_content Sample.bridge /\
  snapshot_text
    (@getScriptSnapshot Sample.util Sample.bridge Sample.paths Sample.regions Sample.tsModule
       (@createLanguageServiceHost Sample.tsModule tt false "/legacy") ∅
       "vue-temp/vue-editor-bridge.ts")
  = @bridge_oldContent Sample.bridge.
Proof.
  split.
  - apply (proj2 (proj2 (proj2 (proj2 (proj2 (proj2
      (@bridge_content_fails_closed Sample.util Sample.bridge Sample.paths
         Sample.regions Sample.tsModule tt false "/ws" ∅))))))).
    vm_compute; reflexivity.
  - apply (proj1 (proj2 (proj2
      (@bridge_content_fails_closed Sample.util Sample.bridge Sample.paths
         Sample.regions Sample.tsModule tt false "/legacy" ∅)))).
    reflexivity.
Defined.

End ServiceHostFacts.

(** * The language service: the update path *)

Module LanguageServiceFacts.
Import LanguageService.

Section Facts.
Context {Pa : Paths}.

(** Every call ends at the first identifier it evaluates that no scope
    binds, and leaves the state it was started in. *)
Lemma updateCurrentTextDocument_run (doc : TextDocument) (st : State) :
  updateCurrentTextDocument doc st =
    Threw (ReferenceError
             (if negb (bool_decide (is_Some (scriptDocs st !! getFileFsPath (uri doc))))
                 && (endsWith (getFileFsPath (uri doc)) ".vue"
                     || endsWith (getFileFsPath (uri doc)) ".vue.template")
              then "files" else "isVirtualVueTemplateFile"))
          st.
Proof.
  unfold updateCurrentTextDocument, bind, scriptDocs_has, unbound, ret.
  by destruct (negb _ && _).
Qed.

Lemma updateAll_state (docs : list TextDocument) (st : State) :
  updateAll docs st = st.
Proof.
  unfold updateAll. revert st.
  induction docs as [|d docs IH]; intros st; [done|].
  simpl. rewrite updateCurrentTextDocument_run. simpl. apply IH.
Qed.

(** C2: the update path never stamps a version.  Every call of
    [updateCurrentTextDocument], on every document and in every state,
    throws a [ReferenceError] (for [files], or for
    [isVirtualVueTemplateFile]) before it has written anything; so after
    any sequence of updates, whether their content changed or not, every
    file has the stamp it had before, and a service that started from the
    field initialisers never holds a stamp or a document. *)
Theorem updateCurrentTextDocument_throws
    (doc : TextDocument) (st : State) (docs : list TextDocument) (fileName : string) :
  (exists identifier,
     updateCurrentTextDocument doc st = Threw (ReferenceError identifier) st /\
     (identifier = "files" \/ identifier = "isVirtualVueTemplateFile")) /\
  versionOf (updateAll docs st) fileName = versionOf st fileName /\
  versionOf (updateAll docs initial) fileName = 0 /\
  scriptDocs (updateAll docs initial) = ∅.
Proof.
  split.
  { eexists. split; [apply updateCurrentTextDocument_run|].
    destruct (negb _ && _); [by left|by right]. }
  rewrite !updateAll_state. done.
Qed.

End Facts.

(** A component is opened and then edited: both calls throw, and the
    stamp of the file stays at 0. *)
Example update_changed_content :
  @updateCurrentTextDocument Sample.paths Sample.appDoc initial
    = Threw (ReferenceError "files") initial /\
  @updateCurrentTextDocument Sample.paths Sample.appDocEdited initial
    = Threw (ReferenceError "files") initial /\
  versionOf (@updateAll Sample.paths [Sample.appDoc; Sample.appDocEdited] initial)
    "/src/App.vue" = 0.
Proof. vm_compute. repeat split. Qed.

End LanguageServiceFacts.

(** * The interpolation mode *)

Module VueInterpolationModeFacts.
Import VueInterpolationMode.

Section Facts.
Context {Pa : Paths} {Sm : SourceMapModule} {Sh : IServiceHost}.
Context {Sv : TemplateService}.

(** C1: when the configuration switches template interpolation off, each
    of the five operations returns its empty result and leaves the world
    as it found it: the host is not updated and no call reaches the
    template service. *)
Theorem disabled_short_circuit (config : JsValue) (document : TextDocument)
    (position : Position) (range : Range) (contextDiagnostics : list Diagnostic)
    (w : World) :
  interpolationEnabled config = false ->
  doValidation config document w = Returned [] w /\
  doHover config document position w = Returned (mkHover [] None) w /\
  findDefinition config document position w = Returned [] w /\
  findReferences config document position w = Returned [] w /\
  getCodeActions config document range contextDiagnostics w = Returned [] w.
Proof.
  intros Hoff.
  unfold doValidation, doHover, findDefinition, findReferences, getCodeActions.
  rewrite Hoff. simpl. repeat split.
Qed.

(** The three outcomes of [doValidation]. *)
Lemma doValidation_cases config document w :
  let templateDoc := templateDocOf document in
  let h := serviceHost_updateCurrentTextDocument templateDoc (host w) in
  let path := getFileFsPath (uri templateDoc) in
  doValidation config document w =
    if negb (interpolationEnabled config) then Returned [] w
    else if negb (languageServiceIncludesFile h (uri templateDoc)) then
      Returned []
        (mkWorld h (supportedCodeFixCodes w)
           (calls w ++ [Call_updateCurrentTextDocument templateDoc;
                        Call_languageServiceIncludesFile (uri templateDoc)]))
    else
      Returned
        (map (toDiagnostic templateDoc (serviceHost_templateSourceMap h))
             (getSemanticDiagnostics h path))
        (mkWorld h (supportedCodeFixCodes w)
           (calls w ++ [Call_updateCurrentTextDocument templateDoc;
                        Call_languageServiceIncludesFile (uri templateDoc);
                        Call_getSemanticDiagnostics path])).
Proof.
  intros templateDoc h path. unfold doValidation.
  destruct (interpolationEnabled config); cbn [negb]; [|done].
  unfold bind, updateCurrentTextDocument, query, record, ret.
  cbn [host calls supportedCodeFixCodes].
  fold templateDoc. fold h. fold path.
  destruct (languageServiceIncludesFile h (uri templateDoc)); cbn [negb host calls];
    by rewrite <- !app_assoc.
Qed.

(** C3: validation always returns; what it returns was made, one for one,
    from the diagnostics of the semantic query on the template file, each
    with severity Error, the engine's code, the flattened message and the
    range mapped back through the template source map; the syntactic
    query is not among the calls validation makes.  When interpolation is
    on and the service includes the template file, every semantic
    diagnostic is returned. *)
Theorem doValidation_semantic_errors (config : JsValue) (document : TextDocument)
    (w : World) :
  let templateDoc := templateDocOf document in
  let path := getFileFsPath (uri templateDoc) in
  exists ds w' made,
    doValidation config document w = Returned ds w' /\
    calls w' = (calls w ++ made)%list /\
    (forall f, Call_getSyntacticDiagnostics f ∉ made) /\
    (forall d, d ∈ ds ->
       exists raw,
         raw ∈ getSemanticDiagnostics (host w') path /\
         d_range d = mapBackRange templateDoc (diag_span raw)
                       (serviceHost_templateSourceMap (host w')) /\
         d_severity d = Severity_Error /\
         d_code d = CodeNum (diag_code raw) /\
         d_message d = flattenDiagnosticMessageText (diag_messageText raw) newline) /\
    (interpolationEnabled config = true ->
     languageServiceIncludesFile (host w') (uri templateDoc) = true ->
     ds = map (toDiagnostic templateDoc (serviceHost_templateSourceMap (host w')))
              (getSemanticDiagnostics (host w') path)).
Proof.
  intros templateDoc path.
  pose proof (doValidation_cases config document w) as Hcases. cbv zeta in Hcases.
  fold templateDoc in Hcases. fold path in Hcases.
  set (h := serviceHost_updateCurrentTextDocument templateDoc (host w)) in *.
  assert (Hmade : forall (made : list Call) f,
            (forall c, c ∈ made -> match c with
                                   | Call_getSyntacticDiagnostics _ => False
                                   | _ => True
                                   end) ->
            Call_getSyntacticDiagnostics f ∉ made).
  { intros made f Hall Hin. apply (Hall _ Hin). }
  destruct (interpolationEnabled config) eqn:Hon; cbn [negb] in Hcases.
  - destruct (languageServiceIncludesFile h (uri templateDoc)) eqn:Hincl;
      cbn [negb] in Hcases.
    + eexists _, _, _. split; [exact Hcases|]. cbn [host calls].
      split; [reflexivity|].
      split.
      { intros f. apply Hmade. intros c Hc.
        repeat (apply elem_of_cons in Hc as [->|Hc]; [done|]).
        by apply elem_of_nil in Hc. }
      split; [|done].
      intros d Hd. apply list_elem_of_fmap in Hd as (raw & -> & Hraw).
      exists raw. done.
    + eexists _, _, _. split; [exact Hcases|]. cbn [host calls].
      split; [reflexivity|].
      split.
      { intros f. apply Hmade. intros c Hc.
        repeat (apply elem_of_cons in Hc as [->|Hc]; [done|]).
        by apply elem_of_nil in Hc. }
      split; [|congruence].
      intros d Hd. by apply elem_of_nil in Hd.
  - exists [], w, []. split; [exact Hcases|].
    split; [by rewrite app_nil_r|].
    split; [intros f Hin; by apply elem_of_nil in Hin|].
    split; [|done].
    intros d Hd. by apply elem_of_nil in Hd.
Qed.

(** A span in another file that the program holds becomes a location in
    that file: its uri is the file's own name, and its range is converted
    with [positionAt] on the file's full text. *)
Lemma locate_other_file document templateDoc templateFileFsPath sm program r fullText :
  ds_fileName r <> templateFileFsPath ->
  program (ds_fileName r) = Some fullText ->
  locate document templateDoc templateFileFsPath sm program r =
    Ok (mkLocation (ds_fileName r)
          (convertRange (TextDocument_create (ds_fileName r) "vue" 0 fullText)
             (ds_textSpan r))).
Proof.
  intros Hne Hfile. unfold locate, getSourceDoc.
  destruct (String.eqb_spec (ds_fileName r) templateFileFsPath) as [E|_]; [done|].
  by rewrite Hfile.
Qed.

(** A span in another file that the program does not hold makes the
    conversion throw. *)
Lemma locate_unresolved document templateDoc templateFileFsPath sm program r :
  ds_fileName r <> templateFileFsPath ->
  program (ds_fileName r) = None ->
  locate document templateDoc templateFileFsPath sm program r = Throw TypeError.
Proof.
  intros Hne Hfile. unfold locate, getSourceDoc.
  destruct (String.eqb_spec (ds_fileName r) templateFileFsPath) as [E|_]; [done|].
  by rewrite Hfile.
Qed.

(** One unresolved span anywhere in the list makes the whole loop throw:
    nothing is dropped, and nothing is returned. *)
Lemma locateAll_unresolved document templateDoc templateFileFsPath sm program rs results r :
  r ∈ rs ->
  ds_fileName r <> templateFileFsPath ->
  program (ds_fileName r) = None ->
  locateAll document templateDoc templateFileFsPath sm program rs results = Throw TypeError.
Proof.
  intros Hin Hne Hfile. revert results.
  induction rs as [|r' rs IH]; intros results; [by apply elem_of_nil in Hin|].
  simpl. apply elem_of_cons in Hin as [<-|Hin].
  - by rewrite locate_unresolved.
  - destruct (locate _ _ _ _ _ r') as [l|[]] eqn:Hl; simpl.
    + by apply IH.
    + done.
    + exfalso. unfold locate, getSourceDoc in Hl.
      destruct (String.eqb _ _); simpl in Hl; [done|].
      by destruct (program (ds_fileName r')).
Qed.

(** When the program holds every other file the spans name, the loop
    returns one location per span, in order. *)
Lemma locateAll_resolved document templateDoc templateFileFsPath sm program rs results :
  (forall r, r ∈ rs ->
     ds_fileName r = templateFileFsPath \/ is_Some (program (ds_fileName r))) ->
  locateAll document templateDoc templateFileFsPath sm program rs results =
    Ok (results ++ map (locationOf document templateDoc templateFileFsPath sm program) rs)%list.
Proof.
  revert results. induction rs as [|r rs IH]; intros results Hall; simpl.
  - by rewrite app_nil_r.
  - assert (Hr : locate document templateDoc templateFileFsPath sm program r
                 = Ok (locationOf document templateDoc templateFileFsPath sm program r)).
    { unfold locate, locationOf, getSourceDoc.
      destruct (String.eqb_spec (ds_fileName r) templateFileFsPath) as [E|Hne]; [done|].
      destruct (Hall r) as [E|[text Htext]]; [by left|done|].
      by rewrite Htext. }
    rewrite Hr. simpl. rewrite IH.
    + by rewrite <- app_assoc.
    + intros r' Hr'. apply Hall. by right.
Qed.

(** [findDefinition] once the service has answered with spans and a
    program: the loop decides the outcome. *)
Lemma findDefinition_run config document position w rs program :
  let templateDoc := templateDocOf document in
  let h := serviceHost_updateCurrentTextDocument templateDoc (host w) in
  let path := getFileFsPath (uri templateDoc) in
  let sm := serviceHost_templateSourceMap h in
  let offset := mapFromPositionToOffset templateDoc position sm in
  interpolationEnabled config = true ->
  languageServiceIncludesFile h (uri templateDoc) = true ->
  getDefinitionAtPosition h path offset = Some rs ->
  getProgram h = Some program ->
  findDefinition config document position w =
    liftResult (locateAll document templateDoc path sm program rs [])
      (mkWorld h (supportedCodeFixCodes w)
         (calls w ++ [Call_updateCurrentTextDocument templateDoc;
                      Call_languageServiceIncludesFile (uri templateDoc);
                      Call_getDefinitionAtPosition path offset;
                      Call_getProgram])).
Proof.
  intros templateDoc h path sm offset Hon Hincl Hdefs Hprog.
  unfold findDefinition. rewrite Hon. cbn [negb].
  unfold bind, updateCurrentTextDocument, query, record, ret.
  cbn [host calls supportedCodeFixCodes].
  fold templateDoc. fold h. fold sm. fold path. fold offset.
  rewrite Hincl. cbn [negb host calls supportedCodeFixCodes].
  rewrite Hdefs. cbn [host calls supportedCodeFixCodes]. rewrite Hprog.
  by rewrite <- !app_assoc.
Qed.

(** Whatever the collaborators: when one of the spans the definition
    query returns names another file that the program does not hold,
    [findDefinition] throws. *)
Lemma findDefinition_unresolved_throws config document position w rs program r :
  let templateDoc := templateDocOf document in
  let h := serviceHost_updateCurrentTextDocument templateDoc (host w) in
  let path := getFileFsPath (uri templateDoc) in
  let sm := serviceHost_templateSourceMap h in
  let offset := mapFromPositionToOffset templateDoc position sm in
  interpolationEnabled config = true ->
  languageServiceIncludesFile h (uri templateDoc) = true ->
  getDefinitionAtPosition h path offset = Some rs ->
  getProgram h = Some program ->
  r ∈ rs -> ds_fileName r <> path -> program (ds_fileName r) = None ->
  exists w', findDefinition config document position w = Threw TypeError w'.
Proof.
  intros templateDoc h path sm offset Hon Hincl Hdefs Hprog Hin Hne Hnone.
  eexists. rewrite (findDefinition_run config document position w rs program); try done.
  fold templateDoc h path sm.
  by rewrite (locateAll_unresolved document templateDoc path sm program rs [] r).
Qed.

(** And when the program holds them all, it returns one location per
    span; a span of another file carries that file's own name and the
    range [positionAt] gives on that file's text. *)
Lemma findDefinition_resolved config document position w rs program :
  let templateDoc := templateDocOf document in
  let h := serviceHost_updateCurrentTextDocument templateDoc (host w) in
  let path := getFileFsPath (uri templateDoc) in
  let sm := serviceHost_templateSourceMap h in
  let offset := mapFromPositionToOffset templateDoc position sm in
  interpolationEnabled config = true ->
  languageServiceIncludesFile h (uri templateDoc) = true ->
  getDefinitionAtPosition h path offset = Some rs ->
  getProgram h = Some program ->
  (forall r, r ∈ rs -> ds_fileName r = path \/ is_Some (program (ds_fileName r))) ->
  exists w',
    findDefinition config document position w
    = Returned (map (locationOf document templateDoc path sm program) rs) w'.
Proof.
  intros templateDoc h path sm offset Hon Hincl Hdefs Hprog Hall.
  eexists. rewrite (findDefinition_run config document position w rs program); try done.
  fold templateDoc h path sm.
  by rewrite (locateAll_resolved document templateDoc path sm program rs []).
Qed.

End Facts.

Lemma disabled_short_circuit_witness :
  @doValidation Sample.paths Sample.sourceMaps Sample.serviceHost Sample.service
    Sample.disabledConfig Sample.appDoc Sample.world = Returned [] Sample.world /\
  @findDefinition Sample.paths Sample.sourceMaps Sample.serviceHost Sample.service
    Sample.disabledConfig Sample.appDoc (mkPosition 0 14) Sample.world
  = Returned [] Sample.world.
Proof.
  pose proof (@disabled_short_circuit Sample.paths Sample.sourceMaps
                Sample.serviceHost Sample.service Sample.disabledConfig Sample.appDoc
                (mkPosition 0 14) (mkRange (mkPosition 0 14) (mkPosition 0 17)) []
                Sample.world eq_refl) as (Hvalidate & _ & Hdefinition & _).
  split; [exact Hvalidate | exact Hdefinition].
Defined.

(** With interpolation on, the sample service's one semantic diagnostic is
    what validation returns, as an error, although the engine ranks it a
    warning; its syntactic diagnostic is not. *)
Lemma doValidation_semantic_errors_witness :
  exists ds w' made,
    @doValidation Sample.paths Sample.sourceMaps Sample.serviceHost Sample.service
      Sample.emptyConfig Sample.appDoc Sample.world = Returned ds w' /\
    calls w' = made /\
    (forall f, Call_getSyntacticDiagnostics f ∉ made) /\
    ds = [mkDiagnostic (mkRange (mkPosition 0 0) (mkPosition 0 0)) Severity_Error
            "Property 'msg' does not exist on type 'Vue'." (CodeNum 2339) "Vetur"].
Proof.
  destruct (@doValidation_semantic_errors Sample.paths
              Sample.sourceMaps Sample.serviceHost Sample.service Sample.emptyConfig Sample.appDoc
              Sample.world) as (ds & w' & made & Hrun & Hcalls & Hsyn & _ & Hall).
  exists ds, w', made. split; [exact Hrun|]. split; [exact Hcalls|].
  split; [exact Hsyn|]. apply Hall; reflexivity.
Defined.

(** C5, at an input where it fails: the definition query answers with a
    span in the template and a span in [/src/missing.ts], a file the
    program does not hold.  [findDefinition] does not drop the second
    span and return the first: it throws a [TypeError]. *)
Theorem findDefinition_unresolved_target_throws :
  exists w',
    @findDefinition Sample.paths Sample.sourceMaps Sample.serviceHost Sample.service
      Sample.emptyConfig Sample.appDoc (mkPosition 0 14) Sample.world
    = Threw TypeError w'.
Proof. eexists. vm_compute. reflexivity. Qed.

(** The part of C5 that holds, on the sample: a reference in a file the
    program holds comes back under that file's own name, with the range
    [positionAt] gives on its text. *)
Lemma findReferences_other_file_example :
  exists w',
    @findReferences Sample.paths Sample.sourceMaps Sample.serviceHost Sample.service
      Sample.emptyConfig Sample.appDoc (mkPosition 0 14) Sample.world
    = Returned [mkLocation "/src/util.ts" (mkRange (mkPosition 0 13) (mkPosition 0 14))] w'.
Proof. eexists. vm_compute. reflexivity. Qed.

End VueInterpolationModeFacts.

(** * More on the registry: what a reachable registry holds and lists *)

Module VueFileInfoManagerMore.
Import VueFileInfoManager VueFileInfoManagerFacts.

Section Facts.
Context {Ut : Util} {Br : Bridge}.

Lemma t_eq (a b : t) :
  sharedFileInfoMap a = sharedFileInfoMap b ->
  virtualVueTemplateFileInfoMap a = virtualVueTemplateFileInfoMap b ->
  a = b.
Proof. destruct a, b; simpl; by intros -> ->. Qed.

Lemma addScript_shared fileName kind m :
  sharedFileInfoMap (addScript fileName kind m) =
    if (isVueFile fileName || isVirtualVueFile fileName)
       && negb (bool_decide (is_Some (sharedFileInfoMap m !! fileName)))
    then <[fileName := mkFileInfo fileName "0" kind]> (sharedFileInfoMap m)
    else sharedFileInfoMap m.
Proof. unfold addScript. by rewrite addTemplate_shared, addShared_shared. Qed.

Lemma addScript_template fileName kind m :
  virtualVueTemplateFileInfoMap (addScript fileName kind m) =
    if isVirtualVueTemplateFile fileName
       && negb (bool_decide (is_Some (virtualVueTemplateFileInfoMap m !! fileName)))
    then <[fileName := mkFileInfo fileName "0" kind]> (virtualVueTemplateFileInfoMap m)
    else virtualVueTemplateFileInfoMap m.
Proof. unfold addScript. by rewrite addTemplate_template, addShared_template. Qed.

(** X1: whatever was registered, and in whatever order, the registry never
    answers a version query with a version other than ["0"], and for every
    name no object inherits it answers ["0"]: no operation of the class
    writes a version after an entry is made. *)
Theorem getScriptVersion_reachable (m : t) (fileName : string) :
  reachable m ->
  (forall v, getScriptVersion m fileName = Some v -> v = "0") /\
  (inheritedMember fileName = false -> getScriptVersion m fileName = Some "0").
Proof.
  intros Hm. destruct (reachable_versions m Hm) as [Hs Ht].
  unfold getScriptVersion, read.
  destruct (sharedFileInfoMap m !! fileName) as [info|] eqn:E1.
  { rewrite (Hs fileName info E1). split; [by intros v [= <-]|done]. }
  destruct (inheritedMember fileName); [split; [by intros v|done]|].
  destruct (virtualVueTemplateFileInfoMap m !! fileName) as [info|] eqn:E2.
  { rewrite (Ht fileName info E2). split; [by intros v [= <-]|done]. }
  split; [by intros v [= <-]|done].
Qed.

(** X2: in a reachable registry every entry is filed under its own name;
    the shared map holds only the bridging file, Vue files and virtual Vue
    scripts, and the template map holds only virtual template files. *)
Theorem reachable_keys (m : t) :
  reachable m ->
  (forall f info, sharedFileInfoMap m !! f = Some info ->
     fi_fileName info = f /\
     (f = bridge_fileName \/ isVueFile f || isVirtualVueFile f = true)) /\
  (forall f info, virtualVueTemplateFileInfoMap m !! f = Some info ->
     fi_fileName info = f /\ isVirtualVueTemplateFile f = true).
Proof.
  induction 1 as [|m fileName kind _ [IH1 IH2]].
  - split; intros f info; simpl.
    + rewrite lookup_insert. case_decide as E; [|by rewrite lookup_empty].
      intros [= <-]. subst f. split; [done|by left].
    + by rewrite lookup_empty.
  - split; intros f info.
    + rewrite addScript_shared.
      destruct (_ && _) eqn:E; [|by apply IH1].
      apply andb_true_iff in E as [E _].
      rewrite lookup_insert. case_decide as Ef; [|by apply IH1].
      intros [= <-]. subst f. split; [done|by right].
    + rewrite addScript_template.
      destruct (_ && _) eqn:E; [|by apply IH2].
      apply andb_true_iff in E as [E _].
      rewrite lookup_insert. case_decide as Ef; [|by apply IH2].
      intros [= <-]. subst f. done.
Qed.

(** X3: a file that is neither the bridging file nor of one of the three
    Vue patterns can never be registered: registering it changes nothing,
    and in every reachable registry its kind, unless its name is that of
    an inherited member, is reported as JavaScript, with the warning line,
    whatever kind was offered. *)
Theorem getScriptKind_unregistrable (m : t) (fileName : string) (kind : ScriptKind) :
  reachable m ->
  fileName <> bridge_fileName ->
  isVueFile fileName = false ->
  isVirtualVueFile fileName = false ->
  isVirtualVueTemplateFile fileName = false ->
  addScript fileName kind m = m /\
  (inheritedMember fileName = false ->
   getScriptKind (addScript fileName kind m) fileName
     = (Some SK_JS, ["Can't find ScriptKind for " +:+ fileName])) /\
  (inheritedMember fileName = true ->
   getScriptKind (addScript fileName kind m) fileName = (None, [])).
Proof.
  intros Hm Hb Hv Hvv Ht.
  assert (Hadd : addScript fileName kind m = m).
  { unfold addScript, addTemplate, addShared. by rewrite Hv, Hvv, Ht. }
  split; [exact Hadd|]. rewrite Hadd.
  destruct (reachable_keys m Hm) as [Hs Hte].
  assert (E1 : sharedFileInfoMap m !! fileName = None).
  { destruct (sharedFileInfoMap m !! fileName) as [info|] eqn:E1; [|done].
    destruct (Hs _ _ E1) as [_ [?|Hp]]; [done|]. by rewrite Hv, Hvv in Hp. }
  assert (E2 : virtualVueTemplateFileInfoMap m !! fileName = None).
  { destruct (virtualVueTemplateFileInfoMap m !! fileName) as [info|] eqn:E2; [|done].
    destruct (Hte _ _ E2) as [_ Hp]. by rewrite Ht in Hp. }
  unfold getScriptKind. rewrite (read_absent _ _ E1), (read_absent _ _ E2).
  split; by intros ->.
Qed.

(** X4: registering and then asking.  A name of a shared pattern that was
    not yet in the shared map comes back with the kind just given; a name
    that was already there keeps the kind of its first registration; a
    name of the template pattern only, new to both maps, comes back with
    the kind just given (a read of the shared dictionary comes first, so
    under the name of an inherited member the answer is that member's
    [kind], [undefined]). *)
Theorem addScript_then_getScriptKind (m : t) (fileName : string) (kind : ScriptKind) :
  (isVueFile fileName || isVirtualVueFile fileName = true ->
   sharedFileInfoMap m !! fileName = None ->
   getScriptKind (addScript fileName kind m) fileName = (Some kind, [])) /\
  (forall info, sharedFileInfoMap m !! fileName = Some info ->
   getScriptKind (addScript fileName kind m) fileName = (Some (fi_kind info), [])) /\
  (isVueFile fileName || isVirtualVueFile fileName = false ->
   isVirtualVueTemplateFile fileName = true ->
   sharedFileInfoMap m !! fileName = None ->
   virtualVueTemplateFileInfoMap m !! fileName = None ->
   getScriptKind (addScript fileName kind m) fileName
     = if inheritedMember fileName then (None, []) else (Some kind, [])).
Proof.
  unfold getScriptKind, read. rewrite addScript_shared, addScript_template.
  repeat split.
  - intros -> ->. simpl. by rewrite lookup_insert_eq.
  - intros info Hinfo. rewrite Hinfo. simpl. rewrite andb_false_r. by rewrite Hinfo.
  - intros -> -> Hs Ht. simpl. rewrite Hs, Ht. simpl.
    destruct (inheritedMember fileName); [done|]. by rewrite lookup_insert_eq.
Qed.

(** X5: registrations of two different names commute. *)
Theorem addScript_comm (m : t) (f1 f2 : string) (k1 k2 : ScriptKind) :
  f1 <> f2 ->
  addScript f1 k1 (addScript f2 k2 m) = addScript f2 k2 (addScript f1 k1 m).
Proof.
  intros Hne. apply t_eq.
  - rewrite !addScript_shared.
    destruct (isVueFile f1 || isVirtualVueFile f1), (isVueFile f2 || isVirtualVueFile f2);
      simpl; try done.
    destruct (sharedFileInfoMap m !! f1) eqn:E1, (sharedFileInfoMap m !! f2) eqn:E2;
      simpl; rewrite ?lookup_insert_ne by done; rewrite ?E1, ?E2; simpl; try done.
    by apply insert_insert_ne.
  - rewrite !addScript_template.
    destruct (isVirtualVueTemplateFile f1), (isVirtualVueTemplateFile f2);
      simpl; try done.
    destruct (virtualVueTemplateFileInfoMap m !! f1) eqn:E1,
             (virtualVueTemplateFileInfoMap m !! f2) eqn:E2;
      simpl; rewrite ?lookup_insert_ne by done; rewrite ?E1, ?E2; simpl; try done.
    by apply insert_insert_ne.
Qed.

Lemma elem_of_keys (d : gmap string FileInfo) (f : string) :
  f ∈ (map_to_list d).*1 <-> is_Some (d !! f).
Proof.
  rewrite list_elem_of_fmap. split.
  - intros ([k v] & -> & Hin). apply elem_of_map_to_list in Hin. eauto.
  - intros [v Hv]. exists (f, v). split; [done|]. by apply elem_of_map_to_list.
Qed.

(** X6: what [getFiles] lists.  Without the flag, exactly the names of the
    shared map; with it, exactly the names of either map.  So the list
    without the flag is part of the list with it, and in a reachable
    registry both list the bridging file. *)
Theorem getFiles_lists (m : t) (fileName : string) :
  (fileName ∈ getFiles m false <-> is_Some (sharedFileInfoMap m !! fileName)) /\
  (fileName ∈ getFiles m true <->
     is_Some (sharedFileInfoMap m !! fileName) \/
     is_Some (virtualVueTemplateFileInfoMap m !! fileName)) /\
  (fileName ∈ getFiles m false -> fileName ∈ getFiles m true) /\
  (reachable m -> forall flag, bridge_fileName ∈ getFiles m flag).
Proof.
  assert (H1 : fileName ∈ getFiles m false <-> is_Some (sharedFileInfoMap m !! fileName)).
  { unfold getFiles. apply elem_of_keys. }
  assert (H2 : forall g, g ∈ getFiles m true <->
            is_Some (sharedFileInfoMap m !! g) \/
            is_Some (virtualVueTemplateFileInfoMap m !! g)).
  { intros g. unfold getFiles. rewrite elem_of_app, !elem_of_keys. done. }
  split; [exact H1|]. split; [apply H2|]. split.
  - intros Hin. apply H2. left. by apply H1.
  - intros Hm flag. pose proof (reachable_bridge m Hm) as Hb.
    destruct flag.
    + apply H2. left. eauto.
    + unfold getFiles. apply elem_of_keys. eauto.
Qed.

End Facts.

Lemma getScriptVersion_reachable_witness :
  getScriptVersion Sample.registry "/src/App.vue" = Some "0" /\
  getScriptVersion Sample.registry "vue-temp/vue-editor-bridge.ts" = Some "0".
Proof.
  split;
    apply (proj2 (@getScriptVersion_reachable Sample.util Sample.bridge _ _
                    sample_registry_reachable));
    reflexivity.
Defined.

Lemma reachable_keys_witness :
  fi_fileName (mkFileInfo "/src/App.vue" "0" SK_TS) = "/src/App.vue" /\
  ("/src/App.vue" = "vue-temp/vue-editor-bridge.ts" \/
   endsWith "/src/App.vue" ".vue" || endsWith "/src/App.vue" ".vue.ts" = true).
Proof.
  apply (proj1 (@reachable_keys Sample.util Sample.bridge Sample.registry
                  sample_registry_reachable)
           "/src/App.vue" (mkFileInfo "/src/App.vue" "0" SK_TS)).
  vm_compute; reflexivity.
Defined.

Lemma getScriptKind_unregistrable_witness :
  @addScript Sample.util "/src/util.ts" SK_TS Sample.registry = Sample.registry /\
  getScriptKind (@addScript Sample.util "/src/util.ts" SK_TS Sample.registry) "/src/util.ts"
    = (Some SK_JS, ["Can't find ScriptKind for /src/util.ts"]).
Proof.
  destruct (@getScriptKind_unregistrable Sample.util Sample.bridge Sample.registry
              "/src/util.ts" SK_TS sample_registry_reachable) as (Hadd & Hkind & _).
  - discriminate.
  - reflexivity.
  - reflexivity.
  - reflexivity.
  - split; [exact Hadd|]. apply Hkind. reflexivity.
Defined.

Lemma addScript_comm_witness :
  @addScript Sample.util "/src/A.vue" SK_TS
    (@addScript Sample.util "/src/B.vue.template" SK_JS Sample.registry)
  = @addScript Sample.util "/src/B.vue.template" SK_JS
      (@addScript Sample.util "/src/A.vue" SK_TS Sample.registry).
Proof.
  apply (@addScript_comm Sample.util Sample.registry "/src/A.vue" "/src/B.vue.template").
  discriminate.
Defined.

End VueFileInfoManagerMore.

(** * More on strings: suffixes and substrings *)

Module StringFacts.

Lemma app_cons (x : ascii) (a b : string) : String x a +:+ b = String x (a +:+ b).
Proof. reflexivity. Qed.

Lemma app_empty (b : string) : "" +:+ b = b.
Proof. reflexivity. Qed.

Lemma app_assoc (a b c : string) : (a +:+ b) +:+ c = a +:+ (b +:+ c).
Proof.
  induction a as [|x a IH]; rewrite ?app_empty, ?app_cons; [done|by f_equal].
Qed.

Lemma length_app (a b : string) :
  String.length (a +:+ b) = (String.length a + String.length b)%nat.
Proof.
  induction a as [|x a IH]; rewrite ?app_empty, ?app_cons; simpl; [done|by f_equal].
Qed.

Lemma substring_0_all (s : string) : String.substring 0 (String.length s) s = s.
Proof. induction s as [|x s IH]; simpl; [done|by f_equal]. Qed.

Lemma substring_0_app (a b : string) :
  String.substring 0 (String.length a) (a +:+ b) = a.
Proof.
  induction a as [|x a IH]; rewrite ?app_empty, ?app_cons; simpl;
    [by destruct b|by f_equal].
Qed.

Lemma substring_skip_app (a b : string) (m : nat) :
  String.substring (String.length a) m (a +:+ b) = String.substring 0 m b.
Proof.
  induction a as [|x a IH]; rewrite ?app_empty, ?app_cons; simpl; done.
Qed.

Lemma substring_split (s : string) (n : nat) :
  (n <= String.length s)%nat ->
  s = String.substring 0 n s +:+ String.substring n (String.length s - n) s.
Proof.
  revert n. induction s as [|x s IH]; intros n Hn; simpl in *.
  - by destruct n.
  - destruct n as [|n]; simpl.
    + rewrite app_empty. by rewrite substring_0_all.
    + rewrite app_cons. f_equal. apply IH. lia.
Qed.

Lemma length_substring (s : string) (n m : nat) :
  (n + m <= String.length s)%nat -> String.length (String.substring n m s) = m.
Proof.
  revert n m. induction s as [|x s IH]; intros n m Hnm; simpl in *.
  - destruct n, m; simpl; lia.
  - destruct n as [|n].
    + destruct m as [|m]; simpl; [done|]. rewrite (IH 0%nat m) by lia. done.
    + apply IH. lia.
Qed.

(** [s.endsWith(suffix)] holds exactly of the strings that are something
    followed by the suffix. *)
Lemma endsWith_spec (s suffix : string) :
  endsWith s suffix = true <-> exists pre, s = pre +:+ suffix.
Proof.
  unfold endsWith. split.
  - intros H. apply andb_true_iff in H as [Hlen Heq].
    apply Nat.leb_le in Hlen. apply String.eqb_eq in Heq.
    exists (String.substring 0 (String.length s - String.length suffix) s).
    assert (Hs := substring_split s (String.length s - String.length suffix)).
    replace (String.length s - (String.length s - String.length suffix))%nat
      with (String.length suffix) in Hs by lia.
    rewrite Heq in Hs. apply Hs. lia.
  - intros [pre ->]. rewrite length_app. apply andb_true_iff. split.
    + apply Nat.leb_le. lia.
    + apply String.eqb_eq.
      replace (String.length pre + String.length suffix - String.length suffix)%nat
        with (String.length pre) by lia.
      rewrite substring_skip_app. apply substring_0_all.
Qed.

Lemma dropLast_app (pre suffix : string) :
  dropLast (String.length suffix) (pre +:+ suffix) = pre.
Proof.
  unfold dropLast. rewrite length_app.
  replace (String.length pre + String.length suffix - String.length suffix)%nat
    with (String.length pre) by lia.
  apply substring_0_app.
Qed.

(** Taking [.ts] off a name that ends in [.vue.ts] leaves a name that
    ends in [.vue], and putting [.ts] back gives the name again. *)
Lemma dropLast_vue_ts (s : string) :
  endsWith s ".vue.ts" = true ->
  dropLast 3 s +:+ ".ts" = s /\ endsWith (dropLast 3 s) ".vue" = true.
Proof.
  intros H. apply endsWith_spec in H as [pre ->].
  change ".vue.ts" with (".vue" +:+ ".ts"). rewrite <- app_assoc.
  assert (Hd : dropLast 3 ((pre +:+ ".vue") +:+ ".ts") = pre +:+ ".vue")
    by apply (dropLast_app _ ".ts").
  rewrite Hd. split; [done|].
  apply endsWith_spec. by exists pre.
Qed.

End StringFacts.

(** * More on the version pattern *)

Module VersionPatternFacts.
Import StringFacts JavaScriptFacts.

Lemma span_digits_stop (d : string) (c : ascii) (r : string) :
  all_digits d = true -> is_digit c = false ->
  span_digits (d +:+ String c r) = (d, String c r).
Proof.
  intros Hd Hc. induction d as [|x d IH]; rewrite ?app_empty, ?app_cons; simpl.
  - by rewrite Hc.
  - simpl in Hd. apply andb_true_iff in Hd as [Hx Hd]. by rewrite Hx, IH.
Qed.

Lemma span_digits_nonempty (d r : string) :
  d <> "" -> all_digits d = true -> (span_digits (d +:+ r)).1 <> "".
Proof.
  intros Hne Hd. destruct d as [|x d]; [done|].
  rewrite app_cons. simpl in *. apply andb_true_iff in Hd as [Hx _].
  rewrite Hx. by destruct (span_digits (d +:+ r)).
Qed.

Lemma match_version_here_complete (d1 d2 post : string) :
  d1 <> "" -> d2 <> "" -> all_digits d1 = true -> all_digits d2 = true ->
  is_Some (match_version_here (d1 +:+ String "."%char (d2 +:+ post))).
Proof.
  intros H1 H2 Hd1 Hd2. unfold match_version_here.
  rewrite span_digits_stop by done.
  destruct (String.eqb_spec d1 "") as [|_]; [done|].
  pose proof (span_digits_nonempty d2 post H2 Hd2) as Hne.
  destruct (span_digits (d2 +:+ post)) as [d2' r']. simpl in Hne.
  destruct (String.eqb_spec d2' "") as [|_]; [done|]. eauto.
Qed.

Lemma match_version_cons (c : ascii) (s : string) :
  match_version (String c s) =
    match match_version_here (String c s) with
    | Some m => Some m
    | None => match_version s
    end.
Proof. reflexivity. Qed.

Lemma match_version_skip (pre s : string) :
  is_Some (match_version s) -> is_Some (match_version (pre +:+ s)).
Proof.
  intros Hs. induction pre as [|c pre IH]; rewrite ?app_empty, ?app_cons; [done|].
  rewrite match_version_cons. by destruct (match_version_here _).
Qed.

(** X7: the pattern [/\d+\.\d+/] of the version probe.  A text matches
    exactly when it contains a non-empty run of digits, a dot and another
    non-empty run of digits; and what a match returns is such a piece of
    the text. *)
Theorem match_version_iff (s : string) :
  (is_Some (match_version s) <->
   exists pre d1 d2 post,
     s = pre +:+ (d1 +:+ String "."%char (d2 +:+ post)) /\
     d1 <> "" /\ d2 <> "" /\ all_digits d1 = true /\ all_digits d2 = true) /\
  (forall m, match_version s = Some m ->
   exists pre d1 d2 post,
     s = pre +:+ (m +:+ post) /\ m = d1 +:+ String "."%char d2 /\
     d1 <> "" /\ d2 <> "" /\ all_digits d1 = true /\ all_digits d2 = true).
Proof.
  split; [split|].
  - intros [m Hm]. apply match_version_shape in Hm.
    destruct Hm as (pre & d1 & d2 & post & ? & ? & ? & ? & ? & ?).
    exists pre, d1, d2, post. done.
  - intros (pre & d1 & d2 & post & -> & H1 & H2 & Hd1 & Hd2).
    apply match_version_skip.
    pose proof (match_version_here_complete d1 d2 post H1 H2 Hd1 Hd2) as [m Hm].
    destruct d1 as [|x d1]; [done|]. rewrite app_cons in *.
    rewrite match_version_cons, Hm. eauto.
  - intros m Hm. apply match_version_shape in Hm.
    destruct Hm as (pre & d1 & d2 & post & -> & -> & ? & ? & ? & ?).
    exists pre, d1, d2, post. split; [|done].
    f_equal. by rewrite app_assoc, app_cons.
Qed.

End VersionPatternFacts.

(** * More on the service host *)

Module ServiceHostMore.
Import ServiceHost StringFacts.

Section Facts.
Context {Ut : Util} {Br : Bridge} {Pa : Paths} {Rg : Regions} {Ts : TsModule}.

(** The verdict of the probe on a manifest that was found, read and
    parsed, once the entry the code reads is known. *)
Lemma probe_body_verdict p text packageJSON vueStr :
  p <> "" ->
  sys_readFile p = Some text ->
  JSON_parse text = Some packageJSON ->
  nullish (prop packageJSON "dependencies") = false ->
  (if truthy (prop (prop packageJSON "dependencies") "vue")
   then vueStr = prop (prop packageJSON "dependencies") "vue"
   else nullish (prop packageJSON "devDependencies") = false /\
        vueStr = prop (prop packageJSON "devDependencies") "vue") ->
  probe_body (Some p) = Result_bind (match_first vueStr) (fun vueDep =>
                          Ok (parseFloat_lt_2_5 vueDep)).
Proof.
  intros Hp Hread Hparse Hdeps Hvue.
  unfold probe_body, read_packageJSON.
  destruct (String.eqb_spec p "") as [|_]; [done|].
  rewrite Hread, Hparse. simpl. unfold member.
  assert (Hpkg : nullish packageJSON = false).
  { destruct packageJSON; try done. }
  rewrite Hpkg. simpl. rewrite Hdeps. simpl.
  destruct (truthy (prop (prop packageJSON "dependencies") "vue")); simpl.
  - by rewrite Hvue.
  - destruct Hvue as [Hdev ->]. rewrite Hdev. done.
Qed.

(** X8: when [dependencies] has a non-empty string under [vue], that
    entry alone decides: the workspace is old exactly when the text has
    no [digits.digits] piece or its first such piece parses below 2.5.
    Whatever [devDependencies] holds is not looked at. *)
Theorem probe_dependencies_entry_decides (workspace p text : string)
    (packageJSON : JsValue) (s : string) :
  findConfigFile workspace "package.json" = Some p ->
  p <> "" ->
  sys_readFile p = Some text ->
  JSON_parse text = Some packageJSON ->
  prop (prop packageJSON "dependencies") "vue" = JStr s ->
  s <> "" ->
  isUsingOldVueVersion workspace =
    match match_version s with
    | Some vueDep => parseFloat_lt_2_5 vueDep
    | None => true
    end.
Proof.
  intros Hfind Hp Hread Hparse Hvue Hs.
  assert (Hdeps : nullish (prop packageJSON "dependencies") = false).
  { destruct (prop packageJSON "dependencies"); try done. }
  unfold isUsingOldVueVersion. rewrite Hfind.
  rewrite (probe_body_verdict p text packageJSON (JStr s)); try done.
  - simpl. by destruct (match_version s).
  - rewrite Hvue. simpl. by destruct (String.eqb_spec s "").
Qed.

(** X9: a manifest without a [dependencies] object is reported as an old
    Vue, whatever else it holds — a new Vue listed under
    [devDependencies] included: reading [dependencies.vue] throws before
    [devDependencies] is looked at. *)
Theorem probe_missing_dependencies_is_old (workspace p text : string)
    (packageJSON : JsValue) :
  findConfigFile workspace "package.json" = Some p ->
  sys_readFile p = Some text ->
  JSON_parse text = Some packageJSON ->
  nullish (prop packageJSON "dependencies") = true ->
  isUsingOldVueVersion workspace = true.
Proof.
  intros Hfind Hread Hparse Hdeps.
  unfold isUsingOldVueVersion, probe_body, read_packageJSON. rewrite Hfind.
  destruct (String.eqb p ""); simpl; [done|].
  rewrite Hread, Hparse. simpl. unfold member.
  destruct (nullish packageJSON); simpl; [done|]. by rewrite Hdeps.
Qed.

(** X10: when [dependencies] is there but holds no truthy [vue], the
    entry under [devDependencies] decides in the same way; and when
    [devDependencies] is missing too, the workspace is reported old. *)
Theorem probe_devDependencies_fallback (workspace p text : string)
    (packageJSON : JsValue) :
  findConfigFile workspace "package.json" = Some p ->
  p <> "" ->
  sys_readFile p = Some text ->
  JSON_parse text = Some packageJSON ->
  nullish (prop packageJSON "dependencies") = false ->
  truthy (prop (prop packageJSON "dependencies") "vue") = false ->
  (forall s, prop (prop packageJSON "devDependencies") "vue" = JStr s ->
     isUsingOldVueVersion workspace =
       match match_version s with
       | Some vueDep => parseFloat_lt_2_5 vueDep
       | None => true
       end) /\
  (nullish (prop packageJSON "devDependencies") = true ->
     isUsingOldVueVersion workspace = true).
Proof.
  intros Hfind Hp Hread Hparse Hdeps Hvue. split.
  - intros s Hdev.
    assert (Hd : nullish (prop packageJSON "devDependencies") = false).
    { destruct (prop packageJSON "devDependencies"); try done. }
    unfold isUsingOldVueVersion. rewrite Hfind.
    rewrite (probe_body_verdict p text packageJSON (JStr s)); try done.
    + simpl. by destruct (match_version s).
    + by rewrite Hvue.
  - intros Hd.
    unfold isUsingOldVueVersion, probe_body, read_packageJSON. rewrite Hfind.
    destruct (String.eqb_spec p "") as [|_]; [done|].
    rewrite Hread, Hparse. simpl. unfold member.
    destruct (nullish packageJSON); simpl; [done|]. rewrite Hdeps. simpl.
    rewrite Hvue. simpl. by rewrite Hd.
Qed.

(** X11: for every name other than the bridging module, the host answers
    with a module exactly when the engine's resolution does — against the
    real system for absolute and non-Vue names, against the Vue overlay
    otherwise — and an answer of the engine that does not end in
    [.vue.ts] is passed on unchanged. *)
Theorem resolveOne_follows_engine (h : Host) (scriptDocs : gmap string TextDocument)
    (containingFile name : string) :
  name <> bridge_moduleName ->
  let engine := resolveModuleName name containingFile (options h) (sysOf name) in
  (is_Some (resolveOne h scriptDocs containingFile name) <-> is_Some engine) /\
  (forall resolved, engine = Some resolved ->
     endsWith (resolvedFileName resolved) ".vue.ts" = false ->
     resolveOne h scriptDocs containingFile name = Some resolved).
Proof.
  intros Hne engine. subst engine. unfold resolveOne, sysOf.
  destruct (String.eqb_spec name bridge_moduleName) as [|_]; [done|].
  destruct (path_isAbsolute name || negb (isVueFile name)).
  - split; [done|]. by intros resolved ->.
  - destruct (resolveModuleName name containingFile (options h) VueSys) as [r|].
    + split.
      * destruct (endsWith (resolvedFileName r) ".vue.ts"); simpl; split; eauto.
      * intros resolved [= <-] ->. done.
    + split; [done|]. by intros resolved.
Qed.

(** X12: a relative import of a Vue file that the engine resolves to
    [X.vue.ts] comes back as [X.vue]: the name returned, with [.ts] put
    back, is the engine's; it ends in [.vue]; its extension is Ts, Tsx or
    Js; and when a document for [X.vue] is open, the language of that
    document alone picks the extension — the disk is not read. *)
Theorem resolveOne_strips_virtual_suffix (h : Host) (scriptDocs : gmap string TextDocument)
    (containingFile name : string) (resolved : ResolvedModule) :
  name <> bridge_moduleName ->
  path_isAbsolute name = false ->
  isVueFile name = true ->
  resolveModuleName name containingFile (options h) VueSys = Some resolved ->
  endsWith (resolvedFileName resolved) ".vue.ts" = true ->
  exists r,
    resolveOne h scriptDocs containingFile name = Some r /\
    resolvedFileName r +:+ ".ts" = resolvedFileName resolved /\
    endsWith (resolvedFileName r) ".vue" = true /\
    (extension r = Ext_Ts \/ extension r = Ext_Tsx \/ extension r = Ext_Js) /\
    (forall d, scriptDocs !! resolvedFileName r = Some d ->
       extension r =
         if String.eqb (languageId d) "typescript" then Ext_Ts
         else if String.eqb (languageId d) "tsx" then Ext_Tsx
         else Ext_Js).
Proof.
  intros Hne Habs Hvue Hres Hends.
  destruct (dropLast_vue_ts _ Hends) as [Hback Hvue'].
  unfold resolveOne.
  destruct (String.eqb_spec name bridge_moduleName) as [|_]; [done|].
  rewrite Habs, Hvue, Hres, Hends. simpl.
  eexists. split; [reflexivity|]. simpl.
  split; [exact Hback|]. split; [exact Hvue'|]. split.
  - destruct (String.eqb _ "typescript"); [by left|].
    destruct (String.eqb _ "tsx"); [right; by left|right; by right].
  - intros d Hd. by rewrite Hd.
Qed.

(** X13: the bridging file as the engine meets it through the host, in
    every reachable registry: the host lists it, with kind TypeScript and
    version ["0"]; the bridging module resolves to it with the TypeScript
    extension; and its snapshot is one of the two bridging contents. *)
Theorem bridge_through_host (h : Host) (scriptDocs : gmap string TextDocument)
    (m : VueFileInfoManager.t) (containingFile : string) :
  VueFileInfoManager.reachable m ->
  bridge_fileName ∈ getScriptFileNames h m /\
  host_getScriptKind m bridge_fileName = (Some SK_TS, []) /\
  host_getScriptVersion m bridge_fileName = Some "0" /\
  resolveOne h scriptDocs containingFile bridge_moduleName
    = Some (mkResolvedModule bridge_fileName Ext_Ts) /\
  (snapshot_text (getScriptSnapshot h scriptDocs bridge_fileName) = bridge_content \/
   snapshot_text (getScriptSnapshot h scriptDocs bridge_fileName) = bridge_oldContent).
Proof.
  intros Hm.
  pose proof (VueFileInfoManagerFacts.reachable_bridge m Hm) as Hb.
  split.
  { unfold getScriptFileNames.
    by apply (VueFileInfoManagerMore.getFiles_lists m bridge_fileName). }
  split.
  { unfold host_getScriptKind, VueFileInfoManager.getScriptKind.
    by rewrite (VueFileInfoManagerFacts.read_own _ _ _ Hb). }
  split.
  { unfold host_getScriptVersion, VueFileInfoManager.getScriptVersion.
    by rewrite (VueFileInfoManagerFacts.read_own _ _ _ Hb). }
  split.
  { unfold resolveOne. by rewrite String.eqb_refl. }
  unfold getScriptSnapshot. rewrite String.eqb_refl. simpl.
  destruct (isOldVersion h); [by right|by left].
Qed.

(** X14: the two accessors of a snapshot agree.  Asking for the text
    from 0 to the length gives the whole text; any two indices, in either
    order, give a piece whose length is the distance between them after
    both are clamped to the text. *)
Theorem snapshot_accessors (s : ScriptSnapshot) (a b : Z) :
  let len := snapshot_getLength s in
  let clamp x := Z.max 0 (Z.min x len) in
  snapshot_getText s 0 len = snapshot_text s /\
  snapshot_getText s a b = snapshot_getText s b a /\
  Z.of_nat (String.length (snapshot_getText s a b)) = Z.abs (clamp a - clamp b).
Proof.
  intros len clamp. unfold snapshot_getText, snapshot_getLength, js_substring in *.
  fold len. fold (clamp a) (clamp b) (clamp 0) (clamp len).
  assert (Hlen : 0 <= len) by (unfold len, snapshot_getLength; lia).
  split.
  { replace (clamp 0) with 0 by (unfold clamp; lia).
    replace (clamp len) with len by (unfold clamp; lia).
    rewrite Z.min_l, Z.max_r by lia. rewrite Z.sub_0_r. simpl.
    unfold len, snapshot_getLength. rewrite Nat2Z.id. apply substring_0_all. }
  split.
  { by rewrite (Z.min_comm (clamp a)), (Z.max_comm (clamp a)). }
  rewrite length_substring.
  - unfold clamp. lia.
  - unfold clamp, len, snapshot_getLength in *. lia.
Qed.

End Facts.

Lemma probe_dependencies_entry_decides_witness :
  @isUsingOldVueVersion Sample.project "/ws" = false.
Proof.
  rewrite (@probe_dependencies_entry_decides Sample.project "/ws" "/ws/package.json"
             "<manifest of /ws>" Sample.packageJSON "^2.6.10").
  - reflexivity.
  - reflexivity.
  - discriminate.
  - reflexivity.
  - reflexivity.
  - reflexivity.
  - discriminate.
Defined.

Lemma probe_missing_dependencies_is_old_witness :
  @isUsingOldVueVersion Sample.project "/dev-only" = true.
Proof.
  apply (@probe_missing_dependencies_is_old Sample.project "/dev-only"
           "/dev-only/package.json" "<manifest of /dev-only>" Sample.devOnlyPackageJSON).
  - reflexivity.
  - reflexivity.
  - reflexivity.
  - reflexivity.
Defined.

Lemma probe_devDependencies_fallback_witness :
  @isUsingOldVueVersion Sample.project "/fallback" = true.
Proof.
  rewrite (proj1 (@probe_devDependencies_fallback Sample.project "/fallback"
                    "/fallback/package.json" "<manifest of /fallback>"
                    Sample.fallbackPackageJSON eq_refl ltac:(discriminate) eq_refl eq_refl
                    eq_refl eq_refl) "~2.4.2" eq_refl).
  reflexivity.
Defined.

Lemma resolveOne_follows_engine_witness :
  @resolveOne Sample.util Sample.bridge Sample.paths Sample.regions Sample.project
    (@createLanguageServiceHost Sample.project tt false "/ws") ∅ "/ws/src/App.vue" "./util"
  = Some (mkResolvedModule "/ws/src/util.ts" Ext_Ts).
Proof.
  apply (proj2 (@resolveOne_follows_engine Sample.util Sample.bridge Sample.paths
                  Sample.regions Sample.project
                  (@createLanguageServiceHost Sample.project tt false "/ws") ∅
                  "/ws/src/App.vue" "./util" ltac:(discriminate))).
  - reflexivity.
  - reflexivity.
Defined.

Lemma resolveOne_strips_virtual_suffix_witness :
  exists r,
    @resolveOne Sample.util Sample.bridge Sample.paths Sample.regions Sample.project
      (@createLanguageServiceHost Sample.project tt false "/ws") Sample.openOther
      "/ws/src/App.vue" "./Other.vue" = Some r /\
    resolvedFileName r +:+ ".ts" = "/ws/src/Other.vue.ts" /\
    extension r = Ext_Ts.
Proof.
  destruct (@resolveOne_strips_virtual_suffix Sample.util Sample.bridge Sample.paths
              Sample.regions Sample.project
              (@createLanguageServiceHost Sample.project tt false "/ws") Sample.openOther
              "/ws/src/App.vue" "./Other.vue"
              (mkResolvedModule "/ws/src/Other.vue.ts" Ext_Ts)
              ltac:(discriminate) eq_refl eq_refl eq_refl eq_refl)
    as (r & Hr & Hback & _ & _ & Hopen).
  exists r. split; [exact Hr|]. split; [exact Hback|].
  apply (Hopen (mkTextDocument "file:///ws/src/Other.vue" "typescript" 3 "export default {}")).
  assert (Hname : resolvedFileName r = "/ws/src/Other.vue").
  { vm_compute in Hr. by injection Hr as <-. }
  rewrite Hname. reflexivity.
Defined.

Lemma bridge_through_host_witness :
  "vue-temp/vue-editor-bridge.ts"
    ∈ @getScriptFileNames Sample.project
        (@createLanguageServiceHost Sample.project tt false "/ws") Sample.registry.
Proof.
  apply (@bridge_through_host Sample.util Sample.bridge Sample.paths Sample.regions
           Sample.project (@createLanguageServiceHost Sample.project tt false "/ws") ∅
           Sample.registry "/ws/src/App.vue"
           VueFileInfoManagerFacts.sample_registry_reachable).
Defined.

End ServiceHostMore.

(** * The options and the configuration [init] works with *)

Module LanguageServiceInitFacts.
Import LanguageServiceInit.

Section Facts.
Context {Ts : TsModule} {Cf : ConfigModule}.

(** X20: the options of the script service.  [allowNonTsExtensions] is
    true whatever the configuration says; every other option the parsed
    configuration sets has the value set there; an option it does not set
    has its default, if it has one. *)
Theorem tsServiceOptions_lookup (workspacePath key : string) :
  tsServiceOptions workspacePath !! "allowNonTsExtensions" = Some (OptBool true) /\
  (key <> "allowNonTsExtensions" ->
   forall v, getParsedConfig_options workspacePath !! key = Some v ->
     tsServiceOptions workspacePath !! key = Some v) /\
  (key <> "allowNonTsExtensions" ->
   getParsedConfig_options workspacePath !! key = None ->
     tsServiceOptions workspacePath !! key = getDefaultCompilerOptions !! key).
Proof.
  unfold tsServiceOptions. split; [by rewrite lookup_insert_eq|].
  split.
  - intros Hk v Hv. rewrite lookup_insert_ne by done.
    by apply lookup_union_Some_l.
  - intros Hk Hnone. rewrite lookup_insert_ne by done.
    by rewrite lookup_union_r.
Qed.

(** X21: the options of the template service.  The five settings are
    what [init] fixes, whatever the configuration and the defaults say;
    every other option is the script service's — [allowNonTsExtensions],
    which stays true, among them. *)
Theorem templateServiceOptions_lookup (workspacePath key : string) :
  (forall v, (key, v) ∈ templateOverrides ->
     templateServiceOptions workspacePath !! key = Some v) /\
  (key ∉ templateOverrides.*1 ->
     templateServiceOptions workspacePath !! key = tsServiceOptions workspacePath !! key) /\
  templateServiceOptions workspacePath !! "allowNonTsExtensions" = Some (OptBool true).
Proof.
  unfold templateServiceOptions, templateOverrides. split; [|split].
  - intros v Hin.
    repeat (apply elem_of_cons in Hin as [[= -> ->]|Hin];
            [by rewrite ?lookup_insert_eq, ?lookup_insert_ne by done; rewrite ?lookup_insert_eq|]).
    by apply elem_of_nil in Hin.
  - intros Hnot. simpl in Hnot.
    rewrite !not_elem_of_cons in Hnot. destruct Hnot as (? & ? & ? & ? & ? & _).
    by rewrite !lookup_insert_ne by done.
  - rewrite !lookup_insert_ne by done. unfold tsServiceOptions.
    by rewrite lookup_insert_eq.
Qed.

(** X22: the default exclusions.  They always begin with the two
    [node_modules] patterns; none of them begins with [!]; and when a
    [.gitignore] is found, every pattern parsed from it that does not
    begin with [!] is among them. *)
Theorem defaultIgnorePatterns_spec (workspacePath : string) :
  (exists rest,
     defaultIgnorePatterns workspacePath
     = ("node_modules" :: "**/node_modules/*" :: rest)) /\
  (forall s, s ∈ defaultIgnorePatterns workspacePath -> String.prefix "!" s = false) /\
  (forall gitignore s,
     findConfigFile workspacePath ".gitignore" = Some gitignore ->
     gitignore <> "" ->
     s ∈ parseGitIgnore gitignore ->
     String.prefix "!" s = false ->
     s ∈ defaultIgnorePatterns workspacePath).
Proof.
  unfold defaultIgnorePatterns.
  assert (Hfilter : forall l s,
            s ∈ List.filter (fun s => negb (String.prefix "!" s)) l <->
            s ∈ l /\ String.prefix "!" s = false).
  { intros l s. rewrite !list_elem_of_In, filter_In, negb_true_iff. done. }
  split; [|split].
  - destruct (findConfigFile workspacePath ".gitignore") as [g|]; [|by eexists].
    destruct (String.eqb g ""); by eexists.
  - intros s Hin.
    assert (Hnode : s ∈ ["node_modules"; "**/node_modules/*"] -> String.prefix "!" s = false).
    { intros H. repeat (apply elem_of_cons in H as [->|H]; [done|]).
      by apply elem_of_nil in H. }
    destruct (findConfigFile workspacePath ".gitignore") as [g|]; [|by apply Hnode].
    destruct (String.eqb g ""); [by apply Hnode|].
    apply elem_of_app in Hin as [Hin|Hin]; [by apply Hnode|].
    by apply Hfilter in Hin as [_ ?].
  - intros g s -> Hg Hin Hs.
    destruct (String.eqb_spec g "") as [|_]; [done|].
    apply elem_of_app. right. by apply Hfilter.
Qed.

(** X23: the configuration handed to the parser.  It is never a falsy
    value; a [tsconfig.json] that is found is chosen without regard to
    [jsconfig.json]; and when no configuration file is found, or the one
    found yields a falsy configuration, it is the object that excludes
    the default patterns. *)
Theorem configJson_spec (workspacePath : string) :
  let fallback :=
    JObj [("exclude", JArr (map JStr (defaultIgnorePatterns workspacePath)))] in
  truthy (configJson workspacePath) = true /\
  (forall f, findConfigFile workspacePath "tsconfig.json" = Some f -> f <> "" ->
     configFilename workspacePath = Some f) /\
  (configFilename workspacePath = None -> configJson workspacePath = fallback) /\
  (forall f, configFilename workspacePath = Some f ->
     truthy (readConfigFile_config f) = false -> configJson workspacePath = fallback) /\
  (forall f, configFilename workspacePath = Some f -> f <> "" ->
     truthy (readConfigFile_config f) = true ->
     configJson workspacePath = readConfigFile_config f).
Proof.
  intros fallback. unfold configJson. fold fallback.
  split; [|split; [|split; [|split]]].
  - destruct (configFilename workspacePath) as [f|]; [|done].
    destruct (String.eqb f ""); [done|].
    by destruct (truthy (readConfigFile_config f)) eqn:E.
  - intros f Hf Hne. unfold configFilename, optstr_first. rewrite Hf.
    by destruct (String.eqb_spec f "").
  - by intros ->.
  - intros f -> Hfalsy. rewrite Hfalsy. by destruct (String.eqb f "").
  - intros f -> Hne Htruthy. rewrite Htruthy.
    by destruct (String.eqb_spec f "").
Qed.

End Facts.
End LanguageServiceInitFacts.

(** * More on the interpolation mode *)

Module VueInterpolationModeMore.
Import VueInterpolationMode VueInterpolationModeFacts.

Section Facts.
Context {Pa : Paths} {Sm : SourceMapModule} {Sh : IServiceHost}.
Context {Sv : TemplateService}.

(** X24: when the interpolation service is off.  It is off exactly when
    the configuration has objects under [vetur] and [vetur.experimental]
    and a value under [templateInterpolationService] that is present and
    falsy ([false], [0], the empty string, [null]); a configuration that
    stops short of the setting leaves it on. *)
Theorem interpolationEnabled_iff (config : JsValue) :
  let vetur := prop config "vetur" in
  let experimental := prop vetur "experimental" in
  let setting := prop experimental "templateInterpolationService" in
  interpolationEnabled config = false <->
  nullish config = false /\ nullish vetur = false /\ nullish experimental = false /\
  setting <> JUndefined /\ truthy setting = false.
Proof.
  intros vetur experimental setting.
  unfold interpolationEnabled, lodash_get, baseGet. simpl.
  fold vetur. fold experimental. fold setting.
  destruct (nullish config) eqn:Hc; simpl.
  { split; [done|]. by intros (? & _). }
  destruct (nullish vetur) eqn:Hv; simpl.
  { split; [done|]. by intros (_ & ? & _). }
  destruct (nullish experimental) eqn:He; simpl.
  { split; [done|]. by intros (_ & _ & ? & _). }
  destruct setting; simpl; split; try done; try (by intros (_ & _ & _ & ? & ?)).
  all: by intros ?; repeat split.
Qed.

(** What every operation does first when the service is on. *)
Lemma prefix_run {A : Type} (document : TextDocument) (empty : A)
    (k : SourceMap -> M A) (w : World) :
  let templateDoc := templateDocOf document in
  let h := serviceHost_updateCurrentTextDocument templateDoc (host w) in
  let w2 := mkWorld h (supportedCodeFixCodes w)
              (calls w ++ [Call_updateCurrentTextDocument templateDoc;
                           Call_languageServiceIncludesFile (uri templateDoc)]) in
  bind (updateCurrentTextDocument templateDoc)
    (fun templateSourceMap =>
       bind (query (Call_languageServiceIncludesFile (uri templateDoc))
               (fun h => languageServiceIncludesFile h (uri templateDoc)))
         (fun included => if negb included then ret empty else k templateSourceMap)) w
  = if negb (languageServiceIncludesFile h (uri templateDoc))
    then Returned empty w2
    else k (serviceHost_templateSourceMap h) w2.
Proof.
  intros templateDoc h w2.
  unfold bind, updateCurrentTextDocument, query, record, ret.
  cbn [host calls supportedCodeFixCodes]. fold h.
  subst w2. rewrite <- !app_assoc. simpl.
  by destruct (languageServiceIncludesFile h _).
Qed.

Lemma updatesFirst_intro {A : Type} (document : TextDocument) (w : World)
    (o : Outcome A) (rest : list Call) :
  host (worldOf o)
    = serviceHost_updateCurrentTextDocument (templateDocOf document) (host w) ->
  calls (worldOf o)
    = ((calls w ++ [Call_updateCurrentTextDocument (templateDocOf document);
                    Call_languageServiceIncludesFile (uri (templateDocOf document))])
       ++ rest)%list ->
  updatesFirst document w o.
Proof.
  intros Hh Hc. split; [exact Hh|]. exists rest. rewrite Hc.
  by rewrite <- app_assoc.
Qed.

Ltac run_mode :=
  unfold bind, query, record, ret, throw, liftResult, supportedCodes;
  cbn [host calls supportedCodeFixCodes worldOf].

Ltac close_updatesFirst :=
  eapply updatesFirst_intro; cbn [host calls worldOf];
  [reflexivity | rewrite <- ?app_assoc; rewrite ?app_assoc; try reflexivity].

Lemma doValidation_updatesFirst config document w :
  interpolationEnabled config = true ->
  updatesFirst document w (doValidation config document w).
Proof.
  intros Hon. unfold doValidation. rewrite Hon. cbn [negb]. cbv zeta.
  rewrite prefix_run. cbv zeta.
  destruct (languageServiceIncludesFile _ _); cbn [negb].
  - run_mode. eapply (updatesFirst_intro _ _ _ [_]); cbn [host calls worldOf]; reflexivity.
  - eapply (updatesFirst_intro _ _ _ []); cbn [host calls worldOf];
      [reflexivity|by rewrite app_nil_r].
Qed.

Lemma doHover_updatesFirst config document position w :
  interpolationEnabled config = true ->
  updatesFirst document w (doHover config document position w).
Proof.
  intros Hon. unfold doHover. rewrite Hon. cbn [negb]. cbv zeta.
  rewrite prefix_run. cbv zeta.
  destruct (languageServiceIncludesFile _ _); cbn [negb].
  - run_mode. destruct (getQuickInfoAtPosition _ _ _) as [[[dp docs] span]|];
      eapply (updatesFirst_intro _ _ _ [_]); cbn [host calls worldOf]; reflexivity.
  - eapply (updatesFirst_intro _ _ _ []); cbn [host calls worldOf];
      [reflexivity|by rewrite app_nil_r].
Qed.

Lemma findDefinition_updatesFirst config document position w :
  interpolationEnabled config = true ->
  updatesFirst document w (findDefinition config document position w).
Proof.
  intros Hon. unfold findDefinition. rewrite Hon. cbn [negb]. cbv zeta.
  rewrite prefix_run. cbv zeta.
  destruct (languageServiceIncludesFile _ _); cbn [negb].
  - run_mode. destruct (getDefinitionAtPosition _ _ _) as [rs|].
    + cbn [host calls]. destruct (getProgram _) as [program|].
      * destruct (locateAll _ _ _ _ _ _ _);
          eapply (updatesFirst_intro _ _ _ [_; _]); cbn [host calls worldOf];
          [reflexivity|by rewrite <- !app_assoc|reflexivity|by rewrite <- !app_assoc].
      * eapply (updatesFirst_intro _ _ _ [_; _]); cbn [host calls worldOf];
          [reflexivity|by rewrite <- !app_assoc].
    + eapply (updatesFirst_intro _ _ _ [_]); cbn [host calls worldOf]; reflexivity.
  - eapply (updatesFirst_intro _ _ _ []); cbn [host calls worldOf];
      [reflexivity|by rewrite app_nil_r].
Qed.

Lemma findReferences_updatesFirst config document position w :
  interpolationEnabled config = true ->
  updatesFirst document w (findReferences config document position w).
Proof.
  intros Hon. unfold findReferences. rewrite Hon. cbn [negb]. cbv zeta.
  rewrite prefix_run. cbv zeta.
  destruct (languageServiceIncludesFile _ _); cbn [negb].
  - run_mode. destruct (getReferencesAtPosition _ _ _) as [rs|].
    + cbn [host calls]. destruct (getProgram _) as [program|].
      * destruct (locateAll _ _ _ _ _ _ _);
          eapply (updatesFirst_intro _ _ _ [_; _]); cbn [host calls worldOf];
          [reflexivity|by rewrite <- !app_assoc|reflexivity|by rewrite <- !app_assoc].
      * eapply (updatesFirst_intro _ _ _ [_; _]); cbn [host calls worldOf];
          [reflexivity|by rewrite <- !app_assoc].
    + eapply (updatesFirst_intro _ _ _ [_]); cbn [host calls worldOf]; reflexivity.
  - eapply (updatesFirst_intro _ _ _ []); cbn [host calls worldOf];
      [reflexivity|by rewrite app_nil_r].
Qed.

(** [getCodeActions] when the service is on and includes the template
    file: the whole run. *)
Lemma getCodeActions_run config document range contextDiagnostics w :
  let templateDoc := templateDocOf document in
  let h := serviceHost_updateCurrentTextDocument templateDoc (host w) in
  let path := getFileFsPath (uri templateDoc) in
  let sm := serviceHost_templateSourceMap h in
  let start := mapFromPositionToOffset templateDoc (range_start range) sm in
  let end_ := mapFromPositionToOffset templateDoc (range_end range) sm in
  let supported := default (omap js_Number getSupportedCodeFixes) (supportedCodeFixCodes w) in
  let codes := fixableCodes supported contextDiagnostics in
  let settings := getFormatCodeSettings config in
  interpolationEnabled config = true ->
  languageServiceIncludesFile h (uri templateDoc) = true ->
  getCodeActions config document range contextDiagnostics w =
    Returned
      (collectRefactoringCommands (getApplicableRefactors h path start end_) path settings
         start end_
         (collectQuickFixCommands (getCodeFixesAtPosition h path start end_ codes settings)
            h []))
      (mkWorld h (Some supported)
         (calls w ++ [Call_updateCurrentTextDocument templateDoc;
                      Call_languageServiceIncludesFile (uri templateDoc);
                      Call_getCodeFixesAtPosition path start end_ codes;
                      Call_collectQuickFixCommands;
                      Call_getApplicableRefactors path start end_])).
Proof.
  intros templateDoc h path sm start end_ supported codes settings Hon Hincl.
  unfold getCodeActions. rewrite Hon. cbn [negb]. cbv zeta.
  rewrite prefix_run. cbv zeta. fold templateDoc. fold h. rewrite Hincl. cbn [negb].
  run_mode. subst supported codes.
  destruct (supportedCodeFixCodes w) as [cached|]; cbn [host calls supportedCodeFixCodes default];
    by rewrite <- !app_assoc.
Qed.

Lemma getCodeActions_updatesFirst config document range contextDiagnostics w :
  interpolationEnabled config = true ->
  updatesFirst document w (getCodeActions config document range contextDiagnostics w).
Proof.
  intros Hon.
  destruct (languageServiceIncludesFile
              (serviceHost_updateCurrentTextDocument (templateDocOf document) (host w))
              (uri (templateDocOf document))) eqn:Hincl.
  - rewrite getCodeActions_run by done.
    eapply (updatesFirst_intro _ _ _ [_; _; _]); cbn [host calls worldOf];
      [reflexivity|by rewrite <- !app_assoc].
  - unfold getCodeActions. rewrite Hon. cbn [negb]. cbv zeta.
    rewrite prefix_run. cbv zeta. rewrite Hincl. cbn [negb].
    eapply (updatesFirst_intro _ _ _ []); cbn [host calls worldOf];
      [reflexivity|by rewrite app_nil_r].
Qed.

(** X25: with the service on, each of the five operations begins by
    projecting the template document: whatever it goes on to do, and
    whether it returns or throws, the host it leaves is the host it found
    after that one update, and the calls it made begin with the update
    and the inclusion test. *)
Theorem enabled_projects_first (config : JsValue) (document : TextDocument)
    (position : Position) (range : Range) (contextDiagnostics : list Diagnostic)
    (w : World) :
  interpolationEnabled config = true ->
  updatesFirst document w (doValidation config document w) /\
  updatesFirst document w (doHover config document position w) /\
  updatesFirst document w (findDefinition config document position w) /\
  updatesFirst document w (findReferences config document position w) /\
  updatesFirst document w (getCodeActions config document range contextDiagnostics w).
Proof.
  intros Hon.
  pose proof (doValidation_updatesFirst config document w Hon) as H1.
  pose proof (doHover_updatesFirst config document position w Hon) as H2.
  pose proof (findDefinition_updatesFirst config document position w Hon) as H3.
  pose proof (findReferences_updatesFirst config document position w Hon) as H4.
  pose proof (getCodeActions_updatesFirst config document range contextDiagnostics w Hon)
    as H5.
  done.
Qed.

(** X26: with the service on but the template file outside the
    service's program, each operation returns its empty result after
    exactly two calls — the update and the inclusion test — and asks the
    template service nothing about diagnostics, positions or fixes. *)
Theorem not_included_short_circuit (config : JsValue) (document : TextDocument)
    (position : Position) (range : Range) (contextDiagnostics : list Diagnostic)
    (w : World) :
  let templateDoc := templateDocOf document in
  let h := serviceHost_updateCurrentTextDocument templateDoc (host w) in
  let w2 := mkWorld h (supportedCodeFixCodes w)
              (calls w ++ [Call_updateCurrentTextDocument templateDoc;
                           Call_languageServiceIncludesFile (uri templateDoc)]) in
  interpolationEnabled config = true ->
  languageServiceIncludesFile h (uri templateDoc) = false ->
  doValidation config document w = Returned [] w2 /\
  doHover config document position w = Returned (mkHover [] None) w2 /\
  findDefinition config document position w = Returned [] w2 /\
  findReferences config document position w = Returned [] w2 /\
  getCodeActions config document range contextDiagnostics w = Returned [] w2.
Proof.
  intros templateDoc h w2 Hon Hincl.
  unfold doValidation, doHover, findDefinition, findReferences, getCodeActions.
  rewrite Hon. cbn [negb]. cbv zeta.
  rewrite !prefix_run. cbv zeta. fold templateDoc. fold h. rewrite Hincl. done.
Qed.


(** [findReferences] once the service has answered with spans and a
    program. *)
Lemma findReferences_run config document position w rs program :
  let templateDoc := templateDocOf document in
  let h := serviceHost_updateCurrentTextDocument templateDoc (host w) in
  let path := getFileFsPath (uri templateDoc) in
  let sm := serviceHost_templateSourceMap h in
  let offset := mapFromPositionToOffset templateDoc position sm in
  interpolationEnabled config = true ->
  languageServiceIncludesFile h (uri templateDoc) = true ->
  getReferencesAtPosition h path offset = Some rs ->
  getProgram h = Some program ->
  findReferences config document position w =
    liftResult (locateAll document templateDoc path sm program rs [])
      (mkWorld h (supportedCodeFixCodes w)
         (calls w ++ [Call_updateCurrentTextDocument templateDoc;
                      Call_languageServiceIncludesFile (uri templateDoc);
                      Call_getReferencesAtPosition path offset;
                      Call_getProgram])).
Proof.
  intros templateDoc h path sm offset Hon Hincl Hrefs Hprog.
  unfold findReferences. rewrite Hon. cbn [negb]. cbv zeta.
  rewrite prefix_run. cbv zeta. fold templateDoc. fold h. rewrite Hincl. cbn [negb].
  unfold bind, query, record, ret. cbn [host calls supportedCodeFixCodes].
  fold sm. fold path. fold offset. rewrite Hrefs. cbn [host calls supportedCodeFixCodes].
  rewrite Hprog. by rewrite <- !app_assoc.
Qed.

(** X28: navigation when every target can be resolved.  When the
    program holds every other file the answer names, [findDefinition] and
    [findReferences] return one location per span, in the order of the
    answer.  A span in the template file is given to the host document —
    its uri, not the template's — with the range mapped back through the
    source map; a span in another file is given to that file, with the
    range [positionAt] gives on its text. *)
Theorem navigation_resolved (config : JsValue) (document : TextDocument)
    (position : Position) (w : World) (program : Program) :
  let templateDoc := templateDocOf document in
  let h := serviceHost_updateCurrentTextDocument templateDoc (host w) in
  let path := getFileFsPath (uri templateDoc) in
  let sm := serviceHost_templateSourceMap h in
  let offset := mapFromPositionToOffset templateDoc position sm in
  let resolvable (rs : list DocumentSpan) :=
    forall r, r ∈ rs -> ds_fileName r = path \/ is_Some (program (ds_fileName r)) in
  interpolationEnabled config = true ->
  languageServiceIncludesFile h (uri templateDoc) = true ->
  getProgram h = Some program ->
  (forall rs, getDefinitionAtPosition h path offset = Some rs -> resolvable rs ->
     exists w', findDefinition config document position w
                = Returned (map (locationOf document templateDoc path sm program) rs) w') /\
  (forall rs, getReferencesAtPosition h path offset = Some rs -> resolvable rs ->
     exists w', findReferences config document position w
                = Returned (map (locationOf document templateDoc path sm program) rs) w') /\
  (forall r, ds_fileName r = path ->
     locationOf document templateDoc path sm program r
     = mkLocation (uri document) (mapBackRange templateDoc (ds_textSpan r) sm)) /\
  (forall r text, ds_fileName r <> path -> program (ds_fileName r) = Some text ->
     locationOf document templateDoc path sm program r
     = mkLocation (ds_fileName r)
         (Range_create
            (positionAt (TextDocument_create (ds_fileName r) "vue" 0 text)
               (span_start (ds_textSpan r)))
            (positionAt (TextDocument_create (ds_fileName r) "vue" 0 text)
               (span_start (ds_textSpan r) + span_length (ds_textSpan r))))).
Proof.
  intros templateDoc h path sm offset resolvable Hon Hincl Hprog.
  split; [|split; [|split]].
  - intros rs Hrs Hall. eexists.
    rewrite (findDefinition_run config document position w rs program); try done.
    fold templateDoc h path sm.
    by rewrite (locateAll_resolved document templateDoc path sm program rs []).
  - intros rs Hrs Hall. eexists.
    rewrite (findReferences_run config document position w rs program); try done.
    fold templateDoc h path sm.
    by rewrite (locateAll_resolved document templateDoc path sm program rs []).
  - intros r Hr. unfold locationOf. rewrite Hr. by rewrite String.eqb_refl.
  - intros r text Hne Htext. unfold locationOf.
    destruct (String.eqb_spec (ds_fileName r) path) as [|_]; [done|].
    by rewrite Htext.
Qed.

(** X29: the codes sent to the engine for fixing.  A code is sent
    exactly when it is the number of the code of one of the diagnostics
    of the request and is among the supported codes; diagnostics without
    a code, or with a code that is not a number, contribute nothing. *)
Theorem fixableCodes_spec (supported : list Z) (diagnostics : list Diagnostic) (c : Z) :
  (c ∈ fixableCodes supported diagnostics <->
   c ∈ supported /\
   exists d, d ∈ diagnostics /\ codeToNumber (d_code d) = Some c) /\
  (Forall (fun d => codeToNumber (d_code d) = None) diagnostics ->
   fixableCodes supported diagnostics = []).
Proof.
  unfold fixableCodes. split.
  - rewrite list_elem_of_omap. split.
    + intros (d & Hd & Hc).
      destruct (codeToNumber (d_code d)) as [n|] eqn:Hn; [|done].
      case_bool_decide as Hin; [|done].
      injection Hc as <-. eauto.
    + intros (Hin & d & Hd & Hn). exists d. split; [done|].
      rewrite Hn. by rewrite bool_decide_eq_true_2.
  - induction 1 as [|d ds Hd _ IH]; simpl; [done|]. by rewrite Hd.
Qed.


End Facts.

Lemma enabled_projects_first_witness :
  host (worldOf (@doValidation Sample.paths Sample.sourceMaps Sample.serviceHost
                   Sample.service Sample.emptyConfig Sample.appDoc Sample.world))
  = [templateDocOf Sample.appDoc] /\
  host (worldOf (@findDefinition Sample.paths Sample.sourceMaps Sample.serviceHost
                   Sample.service Sample.emptyConfig Sample.appDoc (mkPosition 0 14)
                   Sample.world))
  = [templateDocOf Sample.appDoc].
Proof.
  destruct (@enabled_projects_first Sample.paths Sample.sourceMaps Sample.serviceHost
              Sample.service Sample.emptyConfig Sample.appDoc
              (mkPosition 0 14) (mkRange (mkPosition 0 14) (mkPosition 0 17)) []
              Sample.world eq_refl) as ([Hvalidate _] & _ & [Hdefinition _] & _).
  split; [exact Hvalidate|exact Hdefinition].
Defined.

Lemma not_included_short_circuit_witness :
  exists w',
    @doValidation Sample.paths Sample.sourceMaps Sample.serviceHost
      Sample.excludingService Sample.emptyConfig Sample.appDoc Sample.world
    = Returned [] w' /\
    calls w' = [Call_updateCurrentTextDocument (templateDocOf Sample.appDoc);
                Call_languageServiceIncludesFile "file:///src/App.vue.template"].
Proof.
  eexists. split.
  - apply (@not_included_short_circuit Sample.paths
             Sample.sourceMaps Sample.serviceHost Sample.excludingService Sample.emptyConfig Sample.appDoc
             (mkPosition 0 14) (mkRange (mkPosition 0 14) (mkPosition 0 17)) []
             Sample.world eq_refl eq_refl).
  - reflexivity.
Defined.

Lemma navigation_resolved_witness :
  exists w',
    @findReferences Sample.paths Sample.sourceMaps Sample.serviceHost Sample.service
      Sample.emptyConfig Sample.appDoc (mkPosition 0 14) Sample.world
    = Returned [mkLocation "/src/util.ts" (mkRange (mkPosition 0 13) (mkPosition 0 14))] w'.
Proof.
  destruct (@navigation_resolved Sample.paths Sample.sourceMaps Sample.serviceHost
              Sample.service Sample.emptyConfig Sample.appDoc (mkPosition 0 14)
              Sample.world Sample.program eq_refl eq_refl eq_refl)
    as (_ & Hrefs & _).
  destruct (Hrefs [mkDocumentSpan "/src/util.ts" (mkTextSpan 13 1)] eq_refl) as [w' Hw'].
  - intros r Hr. apply list_elem_of_singleton in Hr as ->. right. by eexists.
  - exists w'. exact Hw'.
Defined.



End VueInterpolationModeMore.
